(** * FreeDiscovery REST resources: a shallow embedding of
      [freediscovery/server/resources.py] and the properties of its
      request handlers.

    Python dictionaries are finite maps from strings to dynamically typed
    values, exceptions are an error monad, IEEE doubles are the kernel's
    binary64 floats, and the collaborators that live in other modules
    (vectorizer, categorizer, clustering back end) are parameters of the
    handlers that call them. *)

From Stdlib Require Import ZArith QArith Floats Ascii String Lia.
From stdpp Require Import gmap strings pretty list fin_maps.

Set Warnings "-inexact-float,-register-all".

Local Open Scope string_scope.
Local Open Scope Z_scope.

(** ** Python values *)

Module Py.

(** The values that travel through the handlers.  [VFloat] is a binary64
    double as the request layer delivers it; [VRat] is the exact value of a
    computed metric or distance. *)
Inductive value : Type :=
| VNone
| VBool (b : bool)
| VInt (z : Z)
| VFloat (f : float)
| VRat (q : Q)
| VStr (s : string)
| VList (l : list value).

Abbreviation dict := (gmap string value).

Inductive exn : Type :=
| KeyError (k : string)
| TypeError
| ValueError
| OverflowError
| ValidationError (field : string)
| NotFound (id : string)
| InvalidConfiguration.

Inductive exc (A : Type) : Type :=
| Ok (a : A)
| Raise (e : exn).
Arguments Ok {A} a.
Arguments Raise {A} e.

#[export] Instance exc_ret : MRet exc := fun _ a => Ok a.
#[export] Instance exc_bind : MBind exc := fun _ _ k m =>
  match m with
  | Ok a => k a
  | Raise e => Raise e
  end.

#[export] Instance exc_fmap : FMap exc := fun _ _ f m =>
  match m with
  | Ok a => Ok (f a)
  | Raise e => Raise e
  end.

(** [d[k]]: a missing key raises [KeyError]. *)
Definition getitem (d : dict) (k : string) : exc value :=
  match d !! k with
  | Some v => Ok v
  | None => Raise (KeyError k)
  end.

(** [k in d] *)
Definition contains (d : dict) (k : string) : bool :=
  match d !! k with
  | Some _ => true
  | None => false
  end.

(** Truth value of an object, as [if v:] tests it. *)
Definition truthy (v : value) : bool :=
  match v with
  | VNone => false
  | VBool b => b
  | VInt z => negb (z =? 0)
  | VFloat f => negb (PrimFloat.eqb f 0%float)
  | VRat q => negb (Qeq_bool q 0)
  | VStr s => negb (String.eqb s "")
  | VList l => match l with [] => false | _ => true end
  end.

(** [v == s] for a string literal [s]: false on every other type. *)
Definition eq_str (v : value) (s : string) : bool :=
  match v with
  | VStr t => String.eqb t s
  | _ => false
  end.

(** Exact value of a finite double [(-1)^s * m * 2^e] against an integer:
    Python compares an [int] with a [float] without rounding the [int]. *)
Definition float_ltb_Z (c : float) (z : Z) : bool :=
  match Prim2SF c with
  | S754_nan => false
  | S754_infinity s => s
  | S754_zero _ => 0 <? z
  | S754_finite s m e =>
      let mz := if s then Z.neg m else Z.pos m in
      if 0 <=? e then mz * 2 ^ e <? z else mz <? z * 2 ^ (- e)
  end.

(** [v > c] for a double [c]; ordering a number against a non-number is a
    [TypeError]. *)
Definition gt_float (v : value) (c : float) : exc bool :=
  match v with
  | VFloat x => Ok (PrimFloat.ltb c x)
  | VInt z => Ok (float_ltb_Z c z)
  | VBool b => Ok (float_ltb_Z c (Z.b2z b))
  | _ => Raise TypeError
  end.

(** [v > 0] *)
Definition gt_zero (v : value) : exc bool :=
  match v with
  | VFloat x => Ok (PrimFloat.ltb 0%float x)
  | VInt z => Ok (0 <? z)
  | VBool b => Ok b
  | VRat q => Ok (negb (Qle_bool q 0))
  | _ => Raise TypeError
  end.

(** [v < 0] *)
Definition lt_zero (v : value) : exc bool :=
  match v with
  | VFloat x => Ok (PrimFloat.ltb x 0%float)
  | VInt z => Ok (z <? 0)
  | VBool b => Ok false
  | VRat q => Ok (negb (Qle_bool 0 q))
  | _ => Raise TypeError
  end.

(** [int(x)] of a double: truncation towards zero; [nan] and the infinities
    raise. *)
Definition int_of_float (x : float) : exc Z :=
  match Prim2SF x with
  | S754_nan => Raise ValueError
  | S754_infinity _ => Raise OverflowError
  | S754_zero _ => Ok 0
  | S754_finite s m e =>
      let a := if 0 <=? e then Z.pos m * 2 ^ e else Z.pos m / 2 ^ (- e) in
      Ok (if s then - a else a)
  end.


(** [int(v)] on the numbers the handlers apply it to. *)
Definition int (v : value) : exc value :=
  match v with
  | VInt z => Ok (VInt z)
  | VBool b => Ok (VInt (Z.b2z b))
  | VFloat x => z ← int_of_float x; Ok (VInt z)
  | _ => Raise TypeError
  end.

(** Integer view of a stored count. *)
Definition as_int (v : value) : exc Z :=
  match v with
  | VInt z => Ok z
  | VBool b => Ok (Z.b2z b)
  | _ => Raise TypeError
  end.

(** [for key in keys: body], threading the dictionary the body mutates. *)
Fixpoint for_each (keys : list string) (body : string -> dict -> exc dict)
    (d : dict) : exc dict :=
  match keys with
  | [] => Ok d
  | k :: ks => d' ← body k d; for_each ks body d'
  end.

End Py.
Import Py.

(** ** Feature extraction *)

(** [EPSILON = 1e-3 # small numeric value] *)
Definition EPSILON : float := 1e-3%float.

Module FeaturesApi.

(** The [use_hashing] loop:
    [if key in args: del args[key]]. *)
Definition drop_key (key : string) (args : dict) : exc dict :=
  Ok (if contains args key then delete key args else args).

(** The threshold loop:
    [if key in args and args[key] > 1. + EPSILON: args[key] = int(args[key])] *)
Definition coerce_key (key : string) (args : dict) : exc dict :=
  if contains args key then
    v ← getitem args key;
    big ← gt_float v (1 + EPSILON)%float;
    if (big : bool) then
      v' ← getitem args key;
      i ← int v';
      Ok (<[key := i]> args)
    else Ok args
  else Ok args.

(** The keyword arguments [post] hands to [fe.preprocess]. *)
Definition post_args (args : dict) : exc dict :=
  use_idf ← getitem args "use_idf";
  b ← gt_zero use_idf;
  let args := <["use_idf" := VBool b]> args in
  norm ← getitem args "norm";
  let args := if eq_str norm "None" then <["norm" := VNone]> args else args in
  use_hashing ← getitem args "use_hashing";
  args ← (if truthy use_hashing
          then for_each ["min_df"; "max_df"] drop_key args
          else Ok args);
  for_each ["min_df"; "max_df"] coerce_key args.

(** The dictionary after the [use_idf] and [norm] lines. *)
Definition flags_set (args : dict) (b : bool) (norm : value) : dict :=
  let args := <["use_idf" := VBool b]> args in
  if eq_str norm "None" then <["norm" := VNone]> args else args.





Section Post.
(** [fe.preprocess] on the keyword arguments, followed by
    [fe.get_params()]: the new dataset id and its stored parameters. *)
Variable preprocess : dict -> exc (string * dict).

Definition post (args : dict) : exc dict :=
  args' ← post_args args;
  r ← preprocess args';
  filenames ← getitem r.2 "filenames";
  Ok (<["filenames" := filenames]> {["id" := VStr r.1]}).
End Post.

End FeaturesApi.

(** ** Shell-style file name patterns, as [glob] matches them *)

Module Glob.

Inductive item : Type :=
| Lit (c : ascii)
| Star
| Range (lo hi : ascii).

Definition in_range (lo hi c : ascii) : bool :=
  (nat_of_ascii lo <=? nat_of_ascii c)%nat && (nat_of_ascii c <=? nat_of_ascii hi)%nat.

Fixpoint matches (p : list item) (s : list ascii) : bool :=
  match p with
  | [] => match s with [] => true | _ => false end
  | Lit c :: p' =>
      match s with
      | a :: s' => Ascii.eqb a c && matches p' s'
      | [] => false
      end
  | Range lo hi :: p' =>
      match s with
      | a :: s' => in_range lo hi a && matches p' s'
      | [] => false
      end
  | Star :: p' =>
      (fix star (s : list ascii) : bool :=
         matches p' s || match s with [] => false | _ :: s' => star s' end) s
  end.

Definition fnmatch (p : list item) (name : string) : bool :=
  matches p (list_ascii_of_string name).

(** ['features-*[0-9]'] *)
Definition features_chunks : list item :=
  map Lit (list_ascii_of_string "features-") ++ [Star; Range "0" "9"].

End Glob.

(** ** Path names ([os.path]) and the test [glob] makes of them *)

Module Path.

Definition slash : ascii := "/"%char.

Definition is_slash (c : ascii) : bool := Ascii.eqb c slash.

(** [s.endswith('/')] *)
Definition ends_with_slash (s : string) : bool :=
  match rev (list_ascii_of_string s) with
  | c :: _ => is_slash c
  | [] => false
  end.

(** [os.path.join(a, b)]: an absolute [b] replaces [a]. *)
Definition join (a b : string) : string :=
  if String.prefix "/" b then b
  else if (String.eqb a "" || ends_with_slash a)%bool then a +:+ b
  else a +:+ "/" +:+ b.

Fixpoint drop_while (f : ascii -> bool) (l : list ascii) : list ascii :=
  match l with
  | [] => []
  | c :: l' => if f c then drop_while f l' else l
  end.

(** [os.path.split(p)[0]]: what precedes the last component, without its
    trailing slashes unless it is made of slashes only. *)
Definition dirname (p : string) : string :=
  let head := drop_while (fun c => negb (is_slash c))
                         (rev (list_ascii_of_string p)) in
  if forallb is_slash head then string_of_list_ascii (rev head)
  else string_of_list_ascii (rev (drop_while is_slash head)).

(** [glob.has_magic(s)]: one of the characters [*], [?] and [[] occurs. *)
Definition has_magic (s : string) : bool :=
  existsb (fun c => Ascii.eqb c "*" || Ascii.eqb c "?" || Ascii.eqb c "[")%bool
          (list_ascii_of_string s).

End Path.

Module FeaturesApiElement.

(** The vectorizer of a dataset and the directory
    [os.path.join(fe.cache_dir, dsid)]: the stored parameters that
    [fe.get_params()] reads back, the names of the files in the directory,
    [fe.cache_dir], and the listings of the directories that the directory
    part of a [glob] pattern resolves to when it holds glob
    metacharacters of its own ([glob] then matches it, as a pattern,
    against the file system). *)
Record dataset : Type := {
  pars : dict;
  files : gset string;
  cache_dir : string;
  glob_dirs : list (gset string)
}.

(** Modelled from the spec: [FeatureVectorizer(cache_dir, dsid=dsid)]
    (freediscovery/text.py): resolving an unknown [dsid] is [NotFound]. *)
Definition FeatureVectorizer (cache : gmap string dataset) (dsid : string)
    : exc dataset :=
  match cache !! dsid with
  | Some fe => Ok fe
  | None => Raise (NotFound dsid)
  end.

(** [os.path.exists(os.path.join(fe.cache_dir, dsid, name))] *)
Definition exists_ (fe : dataset) (name : string) : bool :=
  bool_decide (name ∈ files fe).

(** [glob.glob1(dirname, pattern)]: the names of a directory that match
    the pattern.  (Names that start with a dot are skipped for a pattern
    that does not; no such name matches the pattern used here.) *)
Definition glob1 (names : gset string) (pattern : list Glob.item) : list string :=
  List.filter (Glob.fnmatch pattern) (elements names).

(** The name a chunk file has: [features-], anything, and a final digit. *)
Definition digits : list ascii :=
  ["0"; "1"; "2"; "3"; "4"; "5"; "6"; "7"; "8"; "9"]%char.

Definition is_chunk_name (name : string) : Prop :=
  exists (mid : list ascii) (d : ascii),
    list_ascii_of_string name
    = (list_ascii_of_string "features-" ++ mid ++ [d])%list
    /\ d ∈ digits.

(** [glob(os.path.join(fe.cache_dir, dsid, 'features-*[0-9]'))], as the
    names found directory by directory: [glob] splits the path name, and
    lists the directory part itself only when that part is free of glob
    metacharacters; otherwise it lists the directories the part matches
    as a pattern. *)
Definition glob_dirname (fe : dataset) (dsid : string) : string :=
  Path.dirname
    (Path.join (Path.join (cache_dir fe) dsid) "features-*[0-9]").

Definition glob (fe : dataset) (dsid : string) : list string :=
  let dirname := glob_dirname fe dsid in
  let dirs := if Path.has_magic dirname then glob_dirs fe else [files fe] in
  flat_map (fun names => glob1 names Glob.features_chunks) dirs.

(** What is handed to a schema's [dump]. *)
Inductive body : Type :=
| FeaturesSchema_dump (out : dict)
| ErrorSchema_dump (err : dict).

(** [len(glob(os.path.join(fe.cache_dir, dsid, 'features-*[0-9]')))] *)
Definition n_chunks (fe : dataset) (dsid : string) : Z :=
  Z.of_nat (length (glob fe dsid)).

Definition get (cache : gmap string dataset) (dsid : string) : exc (body * Z) :=
  fe ← FeatureVectorizer cache dsid;
  let out := pars fe in
  let is_processing := exists_ fe "processing" in
  let is_finished := exists_ fe "processing_finished" in
  if is_processing && negb is_finished then
    let n_chunks := n_chunks fe dsid in
    chunk_size ← getitem out "chunk_size";
    chunk_size ← as_int chunk_size;
    n_samples ← getitem out "n_samples";
    n_samples ← as_int n_samples;
    let out := <["n_samples_processed" :=
                  VInt (Z.min (n_chunks * chunk_size) n_samples)]> out in
    Ok (FeaturesSchema_dump out, 202)
  else if negb is_processing && is_finished then
    n_samples ← getitem out "n_samples";
    let out := <["n_samples_processed" := n_samples]> out in
    Ok (FeaturesSchema_dump out, 200)
  else
    Ok (ErrorSchema_dump
          {["message" := VStr "Processing failed, see server logs!"]}, 520).

(** The body of the failure answer. *)
Definition processing_failed : body :=
  ErrorSchema_dump {["message" := VStr "Processing failed, see server logs!"]}.

End FeaturesApiElement.

(** ** Request arguments ([webargs]) *)

Module Webargs.

Inductive ftype : Type :=
| Str
| Int
| Boolean
| Number
| List (t : ftype).

(** A declared argument: [required=True], [missing=default]. *)
Record field : Type := {
  kind : ftype;
  required : bool;
  missing : option value
}.

Definition arg (t : ftype) : field :=
  {| kind := t; required := false; missing := None |}.
Definition arg_required (t : ftype) : field :=
  {| kind := t; required := true; missing := None |}.
Definition arg_missing (t : ftype) (d : value) : field :=
  {| kind := t; required := false; missing := Some d |}.

(** Values arrive decoded; the conversions between types that the decoding
    layer attempts are outside this model, so a value of another type than
    the field's is a validation error. *)
Fixpoint has_type (v : value) (t : ftype) : bool :=
  match t, v with
  | Str, VStr _ => true
  | Int, VInt _ => true
  | Boolean, VBool _ => true
  | Number, VFloat _ => true
  | List t', VList l => forallb (fun x => has_type x t') l
  | _, _ => false
  end.

(** [use_args(schema)]: only declared arguments reach the handler; an
    absent argument takes its [missing] default when it has one. *)
Fixpoint parse (schema : list (string * field)) (req : dict) : exc dict :=
  match schema with
  | [] => Ok ∅
  | (name, f) :: rest =>
      args ← parse rest req;
      match req !! name with
      | Some v =>
          if has_type v (kind f) then Ok (<[name := v]> args)
          else Raise (ValidationError name)
      | None =>
          match missing f with
          | Some d => Ok (<[name := d]> args)
          | None =>
              if required f then Raise (ValidationError name) else Ok args
          end
      end
  end.

End Webargs.

(** ** Scoring utility *)

Module Scoring.

Local Open Scope Q_scope.

Definition countb {A} (f : A -> bool) (l : list A) : nat :=
  length (List.filter f l).

(** [a / b] in lowest terms, and 0 when the denominator is 0. *)
Definition ratio (a b : nat) : Q :=
  match b with
  | O => 0
  | S _ => Qred (Z.of_nat a # Pos.of_nat b)
  end.

Definition b2q (b : bool) : Q := if b then 1 else 0.

Definition Qltb (x y : Q) : bool := negb (Qle_bool y x).

(** Modelled from the spec: the alignment step of [classification_score]
    (freediscovery/utils.py), "must align by identifier before scoring":
    every predicted identifier that the reference knows is paired with its
    reference label. *)
Definition align (idx_ref : list string) (Y_ref : list bool)
    (idx : list string) (Y : list bool) : list (bool * bool) :=
  let ref : gmap string bool := list_to_map (zip idx_ref Y_ref) in
  omap (fun p : string * bool => (fun r => (r, p.2)) <$> ref !! p.1) (zip idx Y).

(** Modelled from the spec: recall, precision and f1 of binary labels, with
    their usual definitions over the aligned pairs (reference, predicted). *)
Definition recall_score (pairs : list (bool * bool)) : Q :=
  ratio (countb (fun p => p.1 && p.2) pairs) (countb fst pairs).

Definition precision_score (pairs : list (bool * bool)) : Q :=
  ratio (countb (fun p => p.1 && p.2) pairs) (countb snd pairs).

Definition f1_score (pairs : list (bool * bool)) : Q :=
  let p := precision_score pairs in
  let r := recall_score pairs in
  if Qeq_bool (p + r) 0 then 0 else Qred (2 * p * r / (p + r)).

(** The distinct scores, highest first. *)
Fixpoint insert_desc (x : Q) (l : list Q) : list Q :=
  match l with
  | [] => [x]
  | y :: l' =>
      match x ?= y with
      | Gt => x :: l
      | Eq => l
      | Lt => y :: insert_desc x l'
      end
  end.

Definition thresholds (scores : list Q) : list Q :=
  foldr insert_desc [] scores.

(** Modelled from the spec: average precision of ranked predictions,
    the sum over the thresholds [t_k] (highest first) of
    [(R(t_k) - R(t_(k-1))) * P(t_k)], where [P] and [R] are precision and
    recall of the predictions scored at least [t_k]. *)
Definition recall_at (ranked : list (bool * Q)) (t : Q) : Q :=
  ratio (countb (fun p => p.1 && Qle_bool t p.2) ranked) (countb fst ranked).

Definition precision_at (ranked : list (bool * Q)) (t : Q) : Q :=
  ratio (countb (fun p => p.1 && Qle_bool t p.2) ranked)
        (countb (fun p => Qle_bool t p.2) ranked).

Fixpoint ap_sum (ranked : list (bool * Q)) (prev : Q) (ts : list Q) : Q :=
  match ts with
  | [] => 0
  | t :: ts' =>
      (recall_at ranked t - prev) * precision_at ranked t
      + ap_sum ranked (recall_at ranked t) ts'
  end.

Definition average_precision_score (ranked : list (bool * Q)) : Q :=
  Qred (ap_sum ranked 0 (thresholds ranked.*2)).

(** Modelled from the spec: area under the ROC curve, the share of
    (positive, negative) pairs that the scores order correctly, a tie
    counting for one half. *)
Definition pair_credit (ranked : list (bool * Q)) : Q :=
  foldr (fun p acc =>
    if (p.1 : bool) then
      foldr (fun n acc' =>
        if (n.1 : bool) then acc'
        else if Qltb n.2 p.2 then 1 + acc'
        else if Qeq_bool n.2 p.2 then (1 # 2) + acc'
        else acc') acc ranked
    else acc) 0 ranked.

Definition roc_auc_score (ranked : list (bool * Q)) : Q :=
  let n_pos := countb fst ranked in
  let n_neg := countb (fun p => negb p.1) ranked in
  Qred (pair_credit ranked / inject_Z (Z.of_nat (n_pos * n_neg))).

(** The value reported for a metric that is not computed. *)
Definition NOT_COMPUTED : value := VInt (-1).

(** Modelled from the spec: [classification_score] (freediscovery/utils.py).
    The ranking metrics are undefined when the aligned reference labels
    have no positive or no negative example, and are then reported as the
    sentinel. *)
Definition classification_score (idx_ref : list string) (Y_ref : list bool)
    (idx : list string) (Y : list bool) : dict :=
  let pairs := align idx_ref Y_ref idx Y in
  let ranked := map (fun p : bool * bool => (p.1, b2q p.2)) pairs in
  let degenerate :=
    (countb fst pairs =? 0)%nat || (countb (fun p => negb p.1) pairs =? 0)%nat in
  <["recall" := VRat (recall_score pairs)]> (
  <["precision" := VRat (precision_score pairs)]> (
  <["f1" := VRat (f1_score pairs)]> (
  <["auc_roc" :=
      if degenerate then NOT_COMPUTED else VRat (roc_auc_score ranked)]> (
  <["average_precision" :=
      if degenerate then NOT_COMPUTED
      else VRat (average_precision_score ranked)]> ∅)))).

End Scoring.

(** ** Categorization (LSI) *)

Module LSI.

Import Scoring.

Local Open Scope Q_scope.

Record row : Type := {
  label : bool;
  D_d_p : Q;
  D_d_n : Q;
  idx_d_p : nat;
  idx_d_n : nat
}.

(** What [lsi.predict] returns. *)
Record prediction : Type := {
  X_train : list string;
  Y_train : list bool;
  Y_train_res : list bool;
  X_test : list string;
  Y_test_res : list bool;
  res : list row
}.

Section Model.
(** A document of the feature set in projected space, and the distance
    there; the projection and the metric are numerical kernels. *)
Context {vec : Type}.
Variable distance : vec -> vec -> Q.

(** File name and projected row of every document, in document order. *)
Abbreviation model := (list (string * vec)).

(** Modelled from the spec: [LSI(cache_dir, mid=mid)]
    (freediscovery/lsi.py): resolving an unknown [mid] is [NotFound]. *)
Definition load (models : gmap string model) (mid : string) : exc model :=
  match models !! mid with
  | Some lsi => Ok lsi
  | None => Raise (NotFound mid)
  end.

(** Document index and projected row of a file name. *)
Fixpoint index_of (name : string) (docs : model) : option (nat * vec) :=
  match docs with
  | [] => None
  | (n, v) :: rest =>
      if String.eqb n name then Some (O, v)
      else (fun p : nat * vec => (S p.1, p.2)) <$> index_of name rest
  end.

Fixpoint resolve (names : list string) (docs : model) : exc (list (nat * vec)) :=
  match names with
  | [] => Ok []
  | n :: ns =>
      match index_of n docs with
      | None => Raise (NotFound n)
      | Some e => es ← resolve ns docs; Ok (e :: es)
      end
  end.

(** Distance to, and document index of, the nearest exemplar. *)
Fixpoint nearest (v : vec) (ex : list (nat * vec)) : option (Q * nat) :=
  match ex with
  | [] => None
  | (i, w) :: rest =>
      let d := distance v w in
      match nearest v rest with
      | None => Some (d, i)
      | Some (d', i') => if Qle_bool d d' then Some (d, i) else Some (d', i')
      end
  end.

(** Modelled from the spec: the nearest-max decision of [lsi.predict]
    (freediscovery/lsi.py) for one document: relevant iff the nearest
    relevant exemplar is nearer than the nearest non-relevant one. *)
Definition classify (rel nrel : list (nat * vec)) (v : vec) : exc row :=
  match nearest v rel, nearest v nrel with
  | Some (dp, ip), Some (dn, i_n) =>
      Ok {| label := Qltb dp dn;
            D_d_p := dp; D_d_n := dn; idx_d_p := ip; idx_d_n := i_n |}
  | _, _ => Raise InvalidConfiguration
  end.

Fixpoint classify_all (rel nrel : list (nat * vec)) (vs : list vec)
    : exc (list row) :=
  match vs with
  | [] => Ok []
  | v :: vs' =>
      r ← classify rel nrel v;
      rs ← classify_all rel nrel vs';
      Ok (r :: rs)
  end.

(** Modelled from the spec: [lsi.predict(accumulate='nearest-max', ...)]
    (freediscovery/lsi.py), the operation [classify_by_relevance]: every
    document of the feature set is classified against the two exemplar
    sets; the exemplars with their given labels are the training set. *)
Definition predict (docs : model) (relevant non_relevant : list string)
    : exc prediction :=
  rel ← resolve relevant docs;
  nrel ← resolve non_relevant docs;
  rows ← classify_all rel nrel docs.*2;
  let labels := map label rows in
  Ok {| X_train := relevant ++ non_relevant;
        Y_train := map (fun _ => true) relevant
                   ++ map (fun _ => false) non_relevant;
        Y_train_res :=
          map (fun e : nat * vec => default false (labels !! e.1)) (rel ++ nrel);
        X_test := docs.*1;
        Y_test_res := labels;
        res := rows |}.

(** An exemplar of a list of file names: the projected row of a document
    of the feature set that bears one of the names. *)
Definition exemplar (docs : model) (names : list string) (j : nat) (w : vec) : Prop :=
  exists n, n ∈ names /\ docs !! j = Some (n, w).

(** [d] is the distance from [v] to its nearest exemplar among [names]. *)
Definition nearest_distance (docs : model) (names : list string) (v : vec) (d : Q) : Prop :=
  (exists j w, exemplar docs names j w /\ distance v w == d)
  /\ forall j w, exemplar docs names j w -> d <= distance v w.

(** What a row says about its document. *)
Definition row_explains (docs : model) (relevant non_relevant : list string)
    (v : vec) (r : row) : Prop :=
  label r = Qltb (D_d_p r) (D_d_n r)
  /\ nearest_distance docs relevant v (D_d_p r)
  /\ nearest_distance docs non_relevant v (D_d_n r)
  /\ (exists w, exemplar docs relevant (idx_d_p r) w
                /\ D_d_p r = distance v w)
  /\ (exists w, exemplar docs non_relevant (idx_d_n r) w
                /\ D_d_n r = distance v w).
End Model.

End LSI.

Definition as_str (v : value) : exc string :=
  match v with
  | VStr s => Ok s
  | _ => Raise TypeError
  end.

Fixpoint as_str_list_aux (l : list value) : exc (list string) :=
  match l with
  | [] => Ok []
  | v :: l' => s ← as_str v; ss ← as_str_list_aux l'; Ok (s :: ss)
  end.

Definition as_str_list (v : value) : exc (list string) :=
  match v with
  | VList l => as_str_list_aux l
  | _ => Raise TypeError
  end.

(** [del d[k]] *)
Definition delitem (k : string) (d : dict) : exc dict :=
  if contains d k then Ok (delete k d) else Raise (KeyError k).

(** [array.tolist()] *)
Definition tolist {A} (f : A -> value) (l : list A) : value := VList (map f l).

Definition _lsi_api_element_predict_post_args : list (string * Webargs.field) :=
  [("relevant_filenames", Webargs.arg_required (Webargs.List Webargs.Str));
   ("non_relevant_filenames", Webargs.arg_required (Webargs.List Webargs.Str))].

Module LsiApiElementPredict.

Import LSI.

Section Post.
Context {vec : Type}.
Variable distance : vec -> vec -> Q.

Definition post (models : gmap string (list (string * vec))) (mid : string)
    (req : dict) : exc dict :=
  args ← Webargs.parse _lsi_api_element_predict_post_args req;
  lsi ← load models mid;
  relevant ← getitem args "relevant_filenames";
  relevant ← as_str_list relevant;
  non_relevant ← getitem args "non_relevant_filenames";
  non_relevant ← as_str_list non_relevant;
  p ← predict distance lsi relevant non_relevant;
  let res_scores :=
    Scoring.classification_score (X_train p) (Y_train p)
                                 (X_train p) (Y_train_res p) in
  Ok (<["nearest_nrel_doc" :=
          tolist (fun r => VInt (Z.of_nat (idx_d_n r))) (res p)]> (
      <["nearest_rel_doc" :=
          tolist (fun r => VInt (Z.of_nat (idx_d_p r))) (res p)]> (
      <["prediction_nrel" := tolist (fun r => VRat (D_d_n r)) (res p)]> (
      <["prediction_rel" := tolist (fun r => VRat (D_d_p r)) (res p)]> (
      <["prediction" := tolist VBool (Y_test_res p)]> res_scores))))).
End Post.

End LsiApiElementPredict.

(** ** Categorization (ML) *)

Definition _models_api_post_args : list (string * Webargs.field) :=
  [("dataset_id", Webargs.arg_required Webargs.Str);
   ("relevant_filenames", Webargs.arg_required (Webargs.List Webargs.Str));
   ("non_relevant_filenames", Webargs.arg_required (Webargs.List Webargs.Str));
   ("method", Webargs.arg_required Webargs.Str);
   ("cv", Webargs.arg_missing Webargs.Boolean (VBool true));
   ("training_scores", Webargs.arg_missing Webargs.Boolean (VBool true))].

Module ModelsApi.

(** A categorizer after [cat.train]: its model id, the training set it
    returned, what [cat.predict()] then gives, and the file names of its
    feature set ([cat.fe._pars['filenames']]). *)
Record Categorizer : Type := {
  mid : string;
  X_train : list string;
  Y_train : list bool;
  predict : exc (list bool);
  filenames : list string
}.

(** The result when the training scores are not computed. *)
Definition no_scores : dict :=
  <["recall" := VInt (-1)]> (
  <["precision" := VInt (-1)]> (
  <["f1" := VInt (-1)]> (
  <["auc_roc" := VInt (-1)]> (
  <["average_precision" := VInt (-1)]> ∅)))).

Section Post.
(** [Categorizer(cache_dir, dsid=dsid)] followed by [cat.train] with
    [cv] and the remaining keyword arguments. *)
Variable train : string -> option string -> dict -> exc Categorizer.

Definition post (req : dict) : exc dict :=
  args ← Webargs.parse _models_api_post_args req;
  training_scores ← getitem args "training_scores";
  dsid ← getitem args "dataset_id";
  dsid ← as_str dsid;
  cv_flag ← getitem args "cv";
  let cv := if truthy cv_flag then Some "fast" else None in
  args ← for_each ["dataset_id"; "cv"; "training_scores"] delitem args;
  cat ← train dsid cv args;
  res ← (if truthy training_scores then
           Y_res ← predict cat;
           let X_res := filenames cat in
           Ok (Scoring.classification_score (X_train cat) (Y_train cat)
                                            X_res Y_res)
         else Ok no_scores);
  Ok (<["id" := VStr (mid cat)]> res).
End Post.

(** The five metrics of a result. *)
Definition metric_fields : list string :=
  ["recall"; "precision"; "f1"; "auc_roc"; "average_precision"].

(** The reading under which the scores have to be asked for: whenever the
    request does not carry [training_scores=true], the five metrics are the
    sentinel. *)
Definition scores_only_on_request : Prop :=
  forall (train : string -> option string -> dict -> exc Categorizer)
         (req res : dict),
    req !! "training_scores" <> Some (VBool true) ->
    post train req = Ok res ->
    forall k, k ∈ metric_fields -> res !! k = Some (VInt (-1)).

End ModelsApi.

(** ** Clustering *)

Definition _k_mean_clustering_api_post_args : list (string * Webargs.field) :=
  [("dataset_id", Webargs.arg_required Webargs.Str);
   ("n_clusters", Webargs.arg_required Webargs.Int);
   ("lsi_components", Webargs.arg_missing Webargs.Int (VInt (-1)))].

Definition _birch_clustering_api_post_args : list (string * Webargs.field) :=
  [("dataset_id", Webargs.arg_required Webargs.Str);
   ("n_clusters", Webargs.arg_required Webargs.Int);
   ("lsi_components", Webargs.arg_missing Webargs.Int (VInt (-1)));
   ("threshold", Webargs.arg Webargs.Number)].

Definition _wardhc_clustering_api_post_args : list (string * Webargs.field) :=
  [("dataset_id", Webargs.arg_required Webargs.Str);
   ("n_clusters", Webargs.arg_required Webargs.Int);
   ("lsi_components", Webargs.arg_missing Webargs.Int (VInt (-1)));
   ("n_neighbors", Webargs.arg_missing Webargs.Int (VInt 5))].

Definition _dbscan_clustering_api_post_args : list (string * Webargs.field) :=
  [("dataset_id", Webargs.arg_required Webargs.Str);
   ("lsi_components", Webargs.arg_missing Webargs.Int (VInt (-1)));
   ("eps", Webargs.arg_missing Webargs.Number (VFloat 0.1));
   ("min_samples", Webargs.arg_missing Webargs.Int (VInt 10))].

(** The fit operations of [Clustering(cache_dir, dsid)]: each takes the
    dataset id and the keyword arguments and gives the id of the fitted
    model ([cl.mid]). *)
Class Clustering : Type := {
  k_means : string -> dict -> exc string;
  birch : string -> dict -> exc string;
  ward_hc : string -> dict -> exc string;
  dbscan : string -> dict -> exc string
}.

Section ClusteringApi.
Context `{cl : Clustering}.

Definition KmeanClusteringApi_post (req : dict) : exc dict :=
  args ← Webargs.parse _k_mean_clustering_api_post_args req;
  lsi_components ← getitem args "lsi_components";
  negative ← lt_zero lsi_components;
  let args := if (negative : bool)
              then <["lsi_components" := VNone]> args else args in
  dsid ← getitem args "dataset_id";
  dsid ← as_str dsid;
  args ← delitem "dataset_id" args;
  mid ← k_means dsid args;
  Ok {["id" := VStr mid]}.

Definition BirchClusteringApi_post (req : dict) : exc dict :=
  args ← Webargs.parse _birch_clustering_api_post_args req;
  lsi_components ← getitem args "lsi_components";
  negative ← lt_zero lsi_components;
  let args := if (negative : bool)
              then <["lsi_components" := VNone]> args else args in
  dsid ← getitem args "dataset_id";
  dsid ← as_str dsid;
  args ← delitem "dataset_id" args;
  mid ← birch dsid args;
  Ok {["id" := VStr mid]}.

Definition WardHCClusteringApi_post (req : dict) : exc dict :=
  args ← Webargs.parse _wardhc_clustering_api_post_args req;
  lsi_components ← getitem args "lsi_components";
  negative ← lt_zero lsi_components;
  let args := if (negative : bool)
              then <["lsi_components" := VNone]> args else args in
  dsid ← getitem args "dataset_id";
  dsid ← as_str dsid;
  args ← delitem "dataset_id" args;
  mid ← ward_hc dsid args;
  Ok {["id" := VStr mid]}.

Definition DBSCANClusteringApi_post (req : dict) : exc dict :=
  args ← Webargs.parse _dbscan_clustering_api_post_args req;
  lsi_components ← getitem args "lsi_components";
  negative ← lt_zero lsi_components;
  let args := if (negative : bool)
              then <["lsi_components" := VNone]> args else args in
  dsid ← getitem args "dataset_id";
  dsid ← as_str dsid;
  args ← delitem "dataset_id" args;
  mid ← dbscan dsid args;
  Ok {["id" := VStr mid]}.

End ClusteringApi.

(** The four clustering handlers, by algorithm. *)
Inductive clustering_method : Type := KMeans | Birch | WardHC | DBSCAN.

Definition clustering_schema (m : clustering_method) : list (string * Webargs.field) :=
  match m with
  | KMeans => _k_mean_clustering_api_post_args
  | Birch => _birch_clustering_api_post_args
  | WardHC => _wardhc_clustering_api_post_args
  | DBSCAN => _dbscan_clustering_api_post_args
  end.

Definition clustering_post `{cl : Clustering} (m : clustering_method)
    : dict -> exc dict :=
  match m with
  | KMeans => KmeanClusteringApi_post
  | Birch => BirchClusteringApi_post
  | WardHC => WardHCClusteringApi_post
  | DBSCAN => DBSCANClusteringApi_post
  end.

Definition clustering_fit `{cl : Clustering} (m : clustering_method)
    : string -> dict -> exc string :=
  match m with
  | KMeans => k_means
  | Birch => birch
  | WardHC => ward_hc
  | DBSCAN => dbscan
  end.

(** ** Example inputs *)

Module Fixtures.

Import FeaturesApiElement.

(** A dataset of 10 documents extracted in chunks of 4: two chunks written
    and the [processing] marker set; the third chunk written and the
    markers switched; and a directory with both markers. *)
Definition ten_docs : dict :=
  <["chunk_size" := VInt 4]> (<["n_samples" := VInt 10]> ∅).

Definition in_flight : dataset :=
  {| pars := ten_docs;
     files := {["processing"; "features-000000"; "features-000001"; "pars"]};
     cache_dir := "/cache";
     glob_dirs := [] |}.

Definition finished : dataset :=
  {| pars := ten_docs;
     files := {["processing_finished"; "features-000000"; "features-000001";
                "features-000002"; "pars"]};
     cache_dir := "/cache";
     glob_dirs := [] |}.

Definition stale : dataset :=
  {| pars := ten_docs;
     files := {["processing"; "processing_finished"; "features-000000"]};
     cache_dir := "/cache";
     glob_dirs := [] |}.

(** The dataset in flight again, in a directory named [[a]]: as a pattern
    the path [/cache/[a]] matches a directory named [a] only, and the
    cache has none. *)
Definition bracketed : dataset :=
  {| pars := ten_docs;
     files := {["processing"; "features-000000"; "features-000001"; "pars"]};
     cache_dir := "/cache";
     glob_dirs := [] |}.

Definition cache_bracketed : gmap string dataset := {["[a]" := bracketed]}.

Definition cache0 : gmap string dataset :=
  <["a" := in_flight]> (<["b" := finished]> (<["c" := stale]> ∅)).

(** Extraction requests: hashing with [max_df=50]; no hashing with
    [min_df=0.5] and [max_df=50.7]; no hashing with [max_df=1.0005]. *)
Definition base_request : dict :=
  <["use_idf" := VInt 1]> (<["norm" := VStr "l2"]> (
  <["data_dir" := VStr "/data"]> ∅)).

Definition hashing_request : dict :=
  <["use_hashing" := VBool true]> (<["max_df" := VFloat 50]> base_request).

Definition counting_request : dict :=
  <["use_hashing" := VBool false]> (
  <["min_df" := VFloat 0.5]> (<["max_df" := VFloat 50.7]> base_request)).


(** A vectorizer that stores the configuration it is given. *)
Definition preprocess0 (cfg : dict) : exc (string * dict) :=
  Ok ("d0", <["filenames" := VList [VStr "a.txt"; VStr "b.txt"]]> cfg).

(** A clustering request without [lsi_components], and what the k-means
    schema makes of it. *)
Definition kmeans_request : dict :=
  <["dataset_id" := VStr "d0"]> (<["n_clusters" := VInt 3]> ∅).

Definition kmeans_parsed : dict :=
  <["lsi_components" := VInt (-1)]> kmeans_request.

(** A clustering back end whose model id records the call it received. *)
Definition show_lsi_components (kwargs : dict) : string :=
  match kwargs !! "lsi_components" with
  | Some VNone => "lsi_components=None"
  | Some (VInt z) => "lsi_components=" +:+ pretty z
  | _ => "lsi_components=?"
  end.

Definition echo (name dsid : string) (kwargs : dict) : exc string :=
  Ok (name +:+ "(" +:+ dsid +:+ ", " +:+ show_lsi_components kwargs +:+ ")").

Definition echo_clustering : Clustering :=
  {| k_means := echo "k_means"; birch := echo "birch";
     ward_hc := echo "ward_hc"; dbscan := echo "dbscan" |}.

(** A trained categorizer over three documents, and training requests:
    one that does not mention [training_scores], one that turns it off. *)
Definition cat0 : ModelsApi.Categorizer :=
  {| ModelsApi.mid := "m0";
     ModelsApi.X_train := ["a.txt"; "b.txt"];
     ModelsApi.Y_train := [true; false];
     ModelsApi.predict := Ok [true; false; false];
     ModelsApi.filenames := ["a.txt"; "b.txt"; "c.txt"] |}.

Definition train0 (dsid : string) (cv : option string) (kwargs : dict)
    : exc ModelsApi.Categorizer :=
  Ok cat0.

Definition training_request : dict :=
  <["dataset_id" := VStr "d0"]> (
  <["relevant_filenames" := VList [VStr "a.txt"]]> (
  <["non_relevant_filenames" := VList [VStr "b.txt"]]> (
  <["method" := VStr "LogisticRegression"]> ∅))).

Definition quiet_request : dict :=
  <["training_scores" := VBool false]> training_request.

Definition quiet_parsed : dict :=
  <["cv" := VBool true]> quiet_request.

(** A feature set of five documents projected on a line, with the
    distance of the line; two relevant and two non-relevant exemplars. *)
Definition distance1 (a b : Z) : Q := inject_Z (Z.abs (a - b)).

Definition docs5 : list (string * Z) :=
  [("r1.txt", 0); ("r2.txt", 10); ("n1.txt", 4); ("n2.txt", 20); ("d.txt", 1)].

Definition models5 : gmap string (list (string * Z)) := {["m5" := docs5]}.

Definition request5 : dict :=
  <["relevant_filenames" := VList [VStr "r1.txt"; VStr "r2.txt"]]> (
  <["non_relevant_filenames" := VList [VStr "n1.txt"; VStr "n2.txt"]]> ∅).

End Fixtures.

(** ** Testing a relevance classification against a ground truth *)

Definition _lsi_api_element_test_post_args : list (string * Webargs.field) :=
  [("relevant_filenames", Webargs.arg_required (Webargs.List Webargs.Str));
   ("non_relevant_filenames", Webargs.arg_required (Webargs.List Webargs.Str));
   ("ground_truth_filename", Webargs.arg_required Webargs.Str)].

Module LsiApiElementTest.

Import LSI.

Section Post.
Context {vec : Type}.
Variable distance : vec -> vec -> Q.
(** [parse_ground_truth_file]: the document identifiers of the file
    ([d_ref.index.values]) and their relevance ([d_ref.is_relevant.values]). *)
Variable parse_ground_truth_file : string -> exc (list string * list bool).

Definition post (models : gmap string (list (string * vec))) (mid : string)
    (req : dict) : exc dict :=
  args ← Webargs.parse _lsi_api_element_test_post_args req;
  lsi ← load models mid;
  ground_truth_filename ← getitem args "ground_truth_filename";
  ground_truth_filename ← as_str ground_truth_filename;
  d_ref ← parse_ground_truth_file ground_truth_filename;
  args ← delitem "ground_truth_filename" args;
  relevant ← getitem args "relevant_filenames";
  relevant ← as_str_list relevant;
  non_relevant ← getitem args "non_relevant_filenames";
  non_relevant ← as_str_list non_relevant;
  p ← predict distance lsi relevant non_relevant;
  Ok (Scoring.classification_score d_ref.1 d_ref.2 (X_test p) (Y_test_res p)).
End Post.

End LsiApiElementTest.

(** ** Reading a clustering back *)

Definition _clustering_api_get_args : list (string * Webargs.field) :=
  [("n_top_words", Webargs.arg_missing Webargs.Int (VInt 5))].

Module ClusteringApiElement.

(** A clustering model loaded by its id: the labels of the fitted
    estimator ([km.labels_]), the tree [cl._get_htree(km)] gives, the
    operation [cl.compute_labels] on its keyword arguments, and the stored
    parameters ([cl._load_pars()]).  Arrays are the lists of their
    elements. *)
Record Clustering : Type := {
  labels_ : list Z;
  _get_htree : dict;
  compute_labels : dict -> exc value;
  _load_pars : dict
}.

(** The mapping the handler returns. *)
Record response : Type := {
  labels : value;
  cluster_terms : value;
  htree : dict;
  pars : dict
}.

Definition get (cl : Clustering) (req : dict) : exc response :=
  args ← Webargs.parse _clustering_api_get_args req;
  let htree := _get_htree cl in
  let htree :=
    match htree !! "children" with
    | Some children => <["children" := children]> htree
    | None => htree
    end in
  n_top_words ← getitem args "n_top_words";
  positive ← gt_zero n_top_words;
  terms ← (if (positive : bool) then compute_labels cl args else Ok (VList []));
  let pars := _load_pars cl in
  lsi ← getitem pars "lsi";
  let pars := if truthy lsi then <["lsi" := VBool true]> pars else pars in
  Ok {| labels := tolist VInt (labels_ cl);
        cluster_terms := terms;
        htree := htree;
        pars := pars |}.

End ClusteringApiElement.

(** ** Duplicate detection *)

Definition _dup_detection_api_post_args : list (string * Webargs.field) :=
  [("dataset_id", Webargs.arg_required Webargs.Str);
   ("method", Webargs.arg_missing Webargs.Str (VStr "simhash"))].

Definition _dupdet_api_get_args : list (string * Webargs.field) :=
  [("distance", Webargs.arg Webargs.Int);
   ("n_rand_lexicons", Webargs.arg Webargs.Int);
   ("rand_lexicon_ratio", Webargs.arg Webargs.Number)].

Module DupDetectionApi.

Section Post.
(** [DuplicateDetection(cache_dir, dsid=dsid)] followed by
    [model.fit(method)]: the id of the fitted model. *)
Variable fit : string -> value -> exc string.

Definition post (req : dict) : exc dict :=
  args ← Webargs.parse _dup_detection_api_post_args req;
  dsid ← getitem args "dataset_id";
  dsid ← as_str dsid;
  args ← delitem "dataset_id" args;
  method ← getitem args "method";
  mid ← fit dsid method;
  Ok {["id" := VStr mid]}.
End Post.

End DupDetectionApi.

Module DupDetectionApiElement.

Section Get.
(** [DuplicateDetection(cache_dir, mid=mid)] followed by [model.query] on
    the keyword arguments. *)
Variable query : string -> dict -> exc value.

Definition get (mid : string) (req : dict) : exc dict :=
  args ← Webargs.parse _dupdet_api_get_args req;
  cluster_id ← query mid args;
  Ok {["cluster_id" := cluster_id]}.
End Get.

End DupDetectionApiElement.

(** ** What the handlers pass on *)

(** The keyword arguments a clustering handler hands to its fit
    operation, from the parsed arguments. *)
Definition clustering_kwargs (args : dict) : dict :=
  delete "dataset_id"
    (match args !! "lsi_components" with
     | Some (VInt z) => if z <? 0 then <["lsi_components" := VNone]> args else args
     | _ => args
     end).

(** A declared argument of a schema. *)
Definition declared (schema : list (string * Webargs.field)) (name : string)
    : option Webargs.field :=
  (list_to_map schema : gmap string Webargs.field) !! name.

(** What parsing makes of one name: the supplied value or the default of a
    declared argument, nothing for an undeclared one. *)
Definition parsed_value (schema : list (string * Webargs.field)) (req : dict)
    (name : string) : option value :=
  f ← declared schema name;
  match req !! name with
  | Some v => Some v
  | None => Webargs.missing f
  end.

(** A file appears in the directory of a dataset. *)
Definition add_file (name : string) (fe : FeaturesApiElement.dataset)
    : FeaturesApiElement.dataset :=
  {| FeaturesApiElement.pars := FeaturesApiElement.pars fe;
     FeaturesApiElement.files := {[name]} ∪ FeaturesApiElement.files fe;
     FeaturesApiElement.cache_dir := FeaturesApiElement.cache_dir fe;
     FeaturesApiElement.glob_dirs := FeaturesApiElement.glob_dirs fe |}.

(** ** Further example inputs *)

Module Fixtures2.

Import Fixtures.

(** What [counting_request] is normalised to. *)
Definition counting_config : dict :=
  <["use_hashing" := VBool false]> (<["min_df" := VFloat 0.5]> (
  <["max_df" := VInt 50]> (<["use_idf" := VBool true]> (
  <["norm" := VStr "l2"]> (<["data_dir" := VStr "/data"]> ∅))))).

(** A density-based clustering request that also names a cluster count
    and an option no schema declares, and what the schema makes of it. *)
Definition dbscan_request : dict :=
  <["dataset_id" := VStr "d0"]> (<["lsi_components" := VInt 4]> (
  <["n_clusters" := VInt 3]> (<["verbose" := VBool true]> ∅))).

Definition dbscan_parsed : dict :=
  <["dataset_id" := VStr "d0"]> (<["lsi_components" := VInt 4]> (
  <["eps" := VFloat 0.1]> (<["min_samples" := VInt 10]> ∅))).

(** A ground truth for the five documents of [docs5] that leaves
    [r2.txt] out and names a file the feature set does not have. *)
Definition ground_truth0 (filename : string) : exc (list string * list bool) :=
  Ok (["d.txt"; "n1.txt"; "r1.txt"; "n2.txt"; "zz.txt"],
      [true; true; true; false; true]).

Definition test_request5 : dict :=
  <["ground_truth_filename" := VStr "gt.csv"]> request5.

(** The answer of the classification handler for [request5]. *)
Definition post5 : dict :=
  <["prediction" :=
      VList [VBool true; VBool true; VBool false; VBool false; VBool true]]> (
  <["prediction_rel" := VList [VRat 0; VRat 0; VRat 4; VRat 10; VRat 1]]> (
  <["prediction_nrel" := VList [VRat 4; VRat 6; VRat 0; VRat 0; VRat 3]]> (
  <["nearest_rel_doc" := VList [VInt 0; VInt 1; VInt 0; VInt 1; VInt 0]]> (
  <["nearest_nrel_doc" := VList [VInt 2; VInt 2; VInt 2; VInt 3; VInt 2]]> (
  <["recall" := VRat 1]> (<["precision" := VRat 1]> (
  <["f1" := VRat 1]> (<["auc_roc" := VRat 1]> (
  <["average_precision" := VRat 1]> ∅))))))))).

(** A loaded clustering whose term computation records its argument. *)
Definition clustering0 : ClusteringApiElement.Clustering :=
  {| ClusteringApiElement.labels_ := [0; 1; 1; 0];
     ClusteringApiElement._get_htree :=
       <["children" := VList [VList [VInt 0; VInt 1]]]> (
       <["n_leaves" := VInt 2]> ∅);
     ClusteringApiElement.compute_labels := fun kwargs =>
       match kwargs !! "n_top_words" with
       | Some n => Ok (VList [VStr "top"; n])
       | None => Raise TypeError
       end;
     ClusteringApiElement._load_pars :=
       <["lsi" := VStr "lsi-3f"]> (<["n_clusters" := VInt 2]> ∅) |}.

Definition clustering_no_lsi : ClusteringApiElement.Clustering :=
  {| ClusteringApiElement.labels_ := [0; 1];
     ClusteringApiElement._get_htree := ∅;
     ClusteringApiElement.compute_labels := fun _ => Raise ValueError;
     ClusteringApiElement._load_pars := <["lsi" := VNone]> ∅ |}.

(** What [clustering0] answers to a request without arguments. *)
Definition answer0 : ClusteringApiElement.response :=
  {| ClusteringApiElement.labels := VList [VInt 0; VInt 1; VInt 1; VInt 0];
     ClusteringApiElement.cluster_terms := VList [VStr "top"; VInt 5];
     ClusteringApiElement.htree :=
       <["children" := VList [VList [VInt 0; VInt 1]]]> (
       <["n_leaves" := VInt 2]> ∅);
     ClusteringApiElement.pars :=
       <["lsi" := VBool true]> (<["n_clusters" := VInt 2]> ∅) |}.

(** Duplicate detection back ends that record the call. *)
Definition dup_fit0 (dsid : string) (method : value) : exc string :=
  match method with
  | VStr m => Ok (m +:+ "@" +:+ dsid)
  | _ => Raise TypeError
  end.

Definition dup_query0 (mid : string) (kwargs : dict) : exc value :=
  Ok (VList [VInt (Z.of_nat (size kwargs))]).

End Fixtures2.

(** * Properties *)

(** Evaluation of a closed membership or lookup fact. *)
Ltac by_evaluation := apply (bool_decide_unpack _); vm_compute; exact I.

(** ** Chunk file names *)

Module GlobSpec.

Import Glob.

Lemma matches_lits (pre : list ascii) (p : list item) (s : list ascii) :
  matches (map Lit pre ++ p) s = true
  <-> exists s', s = (pre ++ s')%list /\ matches p s' = true.
Proof.
  revert s. induction pre as [|c pre IH]; intros s.
  - cbn [map app]. split; [eauto | by intros (s' & -> & H)].
  - cbn [map app matches]. destruct s as [|a s].
    + split; [done | by intros (s' & H & _)].
    + rewrite andb_true_iff, IH, Ascii.eqb_eq. split.
      * intros (-> & s' & -> & H). eauto.
      * intros (s' & [= -> ->] & H). eauto.
Qed.

Lemma matches_star (p : list item) (s : list ascii) :
  matches (Star :: p) s = true
  <-> exists a b, s = (a ++ b)%list /\ matches p b = true.
Proof.
  induction s as [|c s IH].
  - cbn. rewrite orb_false_r. split.
    + intros H. by exists [], [].
    + intros (a & b & E & H). symmetry in E.
      apply app_eq_nil in E as [-> ->]. done.
  - change (matches (Star :: p) (c :: s))
      with (matches p (c :: s) || matches (Star :: p) s).
    rewrite orb_true_iff, IH. split.
    + intros [H | (a & b & -> & H)].
      * by exists [], (c :: s).
      * by exists (c :: a), b.
    + intros (a & b & E & H). destruct a as [|c' a].
      * left. cbn in E. by subst b.
      * right. injection E as -> ->. eauto.
Qed.

Lemma matches_range (lo hi : ascii) (s : list ascii) :
  matches [Range lo hi] s = true
  <-> exists d, s = [d] /\ in_range lo hi d = true.
Proof.
  cbn. destruct s as [|d [|e s]].
  - split; [done | by intros (d & H & _)].
  - rewrite andb_true_r. split; [eauto | by intros (d' & [= ->] & H)].
  - rewrite andb_false_r. split; [done | by intros (d' & H & _)].
Qed.

(** The files that ['features-*[0-9]'] counts: [features-], anything, and
    a final digit. *)
Lemma features_chunks_matches (name : string) :
  fnmatch features_chunks name = true
  <-> exists (mid : list ascii) (d : ascii),
        list_ascii_of_string name
        = (list_ascii_of_string "features-" ++ mid ++ [d])%list
        /\ in_range "0" "9" d = true.
Proof.
  unfold fnmatch, features_chunks. rewrite matches_lits. split.
  - intros (s' & E & H). apply matches_star in H as (a & b & -> & H).
    apply matches_range in H as (d & -> & H). eauto.
  - intros (mid & d & E & H). exists (mid ++ [d])%list. split; [done|].
    apply matches_star. exists mid, [d]. split; [done|].
    apply matches_range. eauto.
Qed.

Example chunk_names :
  fnmatch features_chunks "features-000012" = true
  /\ fnmatch features_chunks "features-" = false
  /\ fnmatch features_chunks "features-000012.tmp" = false
  /\ fnmatch features_chunks "processing" = false.
Proof. vm_compute. auto. Qed.

End GlobSpec.

(** ** Status of a feature extraction *)

Module StatusSpec.

Import FeaturesApiElement Fixtures.

Lemma exists_true (fe : dataset) (name : string) :
  name ∈ files fe -> exists_ fe name = true.
Proof. intros H. unfold exists_. by apply bool_decide_eq_true. Qed.

Lemma exists_false (fe : dataset) (name : string) :
  name ∉ files fe -> exists_ fe name = false.
Proof. intros H. unfold exists_. by apply bool_decide_eq_false. Qed.

Lemma digit_in_range (d : ascii) :
  Glob.in_range "0" "9" d = bool_decide (d ∈ digits).
Proof. destruct d as [[] [] [] [] [] [] [] []]; vm_compute; reflexivity. Qed.

Example path_examples :
  Path.join (Path.join "/cache" "a") "features-*[0-9]" = "/cache/a/features-*[0-9]"
  /\ Path.join "/cache/" "a" = "/cache/a"
  /\ Path.join "/cache" "/a" = "/a"
  /\ Path.dirname "/cache/a/features-*[0-9]" = "/cache/a"
  /\ Path.dirname "/cache/a//features-*[0-9]" = "/cache/a"
  /\ Path.dirname "/features-*[0-9]" = "/"
  /\ Path.dirname "features-*[0-9]" = ""
  /\ Path.has_magic "/cache/a" = false
  /\ Path.has_magic "/cache/[a]" = true
  /\ Path.has_magic "/ca*che/a" = true.
Proof. vm_compute. repeat split. Qed.

(** The pattern ['features-*[0-9]'] matches the chunk names and no others. *)
Lemma chunk_name_matches (name : string) :
  Glob.fnmatch Glob.features_chunks name = true <-> is_chunk_name name.
Proof.
  rewrite GlobSpec.features_chunks_matches. unfold is_chunk_name.
  split; intros (mid & d & E & Hd); exists mid, d; (split; [exact E|]).
  - rewrite digit_in_range in Hd. by apply bool_decide_eq_true in Hd.
  - rewrite digit_in_range. by apply bool_decide_eq_true.
Qed.

(** The chunk files of a directory, as a set. *)
Lemma chunk_set_spec (names : gset string) (f : string) :
  f ∈ (list_to_set (glob1 names Glob.features_chunks) : gset string)
  <-> f ∈ names /\ is_chunk_name f.
Proof.
  rewrite elem_of_list_to_set, list_elem_of_In. unfold glob1.
  rewrite filter_In, <- list_elem_of_In, elem_of_elements.
  by rewrite chunk_name_matches.
Qed.

Lemma NoDup_List_filter {A} (f : A -> bool) (l : list A) :
  NoDup l -> NoDup (List.filter f l).
Proof.
  induction 1 as [|x l Hx _ IH]; cbn; [constructor|].
  destruct (f x); [|done]. constructor; [|done].
  rewrite list_elem_of_In, filter_In, <- list_elem_of_In. tauto.
Qed.

(** [glob1] finds each chunk file of the directory once. *)
Lemma glob1_count (names chunks : gset string) :
  (forall f, f ∈ chunks <-> f ∈ names /\ is_chunk_name f) ->
  length (glob1 names Glob.features_chunks) = size chunks.
Proof.
  intros Hchunks. symmetry. apply Permutation_length, NoDup_Permutation.
  - apply NoDup_elements.
  - unfold glob1. apply NoDup_List_filter, NoDup_elements.
  - intros f. rewrite elem_of_elements, Hchunks. unfold glob1.
    rewrite list_elem_of_In, filter_In, <- list_elem_of_In, elem_of_elements.
    by rewrite chunk_name_matches.
Qed.

(** On a path without glob metacharacters the count is that of the
    dataset's own directory. *)
Lemma n_chunks_plain_path (fe : dataset) (dsid : string) :
  Path.has_magic (glob_dirname fe dsid) = false ->
  n_chunks fe dsid = Z.of_nat (length (glob1 (files fe) Glob.features_chunks)).
Proof.
  intros H. unfold n_chunks, glob. rewrite H. cbn [flat_map].
  by rewrite app_nil_r.
Qed.

(** While [processing] is present and [processing_finished] is absent,
    and the path of the dataset directory holds none of the characters
    [*], [?] and [[], the status query answers 202 (accepted) with
    [n_samples_processed = min(c * chunk_size, n_samples)], where [c] is the
    number of chunk files in the directory; the count never exceeds
    [n_samples]. *)
Theorem status_in_progress_plain_path (cache : gmap string dataset)
    (dsid : string) (fe : dataset) (chunk_size n_samples : Z)
    (chunks : gset string) :
  cache !! dsid = Some fe ->
  "processing" ∈ files fe ->
  "processing_finished" ∉ files fe ->
  pars fe !! "chunk_size" = Some (VInt chunk_size) ->
  pars fe !! "n_samples" = Some (VInt n_samples) ->
  Path.has_magic (glob_dirname fe dsid) = false ->
  (forall f, f ∈ chunks <-> f ∈ files fe /\ is_chunk_name f) ->
  exists processed : Z,
    get cache dsid
    = Ok (FeaturesSchema_dump
            (<["n_samples_processed" := VInt processed]> (pars fe)), 202)
    /\ processed = Z.min (Z.of_nat (size chunks) * chunk_size) n_samples
    /\ processed <= n_samples.
Proof.
  intros Hfe Hp Hf Hcs Hns Hplain Hchunks.
  exists (Z.min (Z.of_nat (size chunks) * chunk_size) n_samples).
  split; [|split; [reflexivity | apply Z.le_min_r]].
  unfold get, FeatureVectorizer. rewrite Hfe. cbn [mbind exc_bind].
  rewrite (exists_true _ _ Hp), (exists_false _ _ Hf). cbn [andb negb].
  unfold getitem. rewrite Hcs, Hns. cbn [mbind exc_bind as_int].
  by rewrite (n_chunks_plain_path fe dsid Hplain),
             (glob1_count _ chunks Hchunks).
Qed.

Lemma status_in_progress_plain_path_witness :
  exists processed : Z,
    get cache0 "a"
    = Ok (FeaturesSchema_dump
            (<["n_samples_processed" := VInt processed]> ten_docs), 202)
    /\ processed
       = Z.min (Z.of_nat (size ({["features-000000"; "features-000001"]}
                                 : gset string)) * 4) 10
    /\ processed <= 10.
Proof.
  apply (status_in_progress_plain_path cache0 "a" in_flight 4 10
           {["features-000000"; "features-000001"]}).
  - reflexivity.
  - by_evaluation.
  - by_evaluation.
  - reflexivity.
  - reflexivity.
  - reflexivity.
  - intros f. rewrite <- chunk_set_spec.
    replace (list_to_set (glob1 (files in_flight) Glob.features_chunks)
               : gset string)
      with ({["features-000000"; "features-000001"]} : gset string)
      by (vm_compute; reflexivity).
    reflexivity.
Defined.

(** C1, at a dataset whose directory is named [[a]]: the markers say in
    progress and the directory holds two chunk files of four documents,
    yet the status query reports 0 documents processed, not 8, since
    [glob] reads the [[a]] of the path as a character class and lists no
    directory. *)
Lemma status_in_progress_bracketed :
  cache_bracketed !! "[a]" = Some bracketed
  /\ "processing" ∈ files bracketed
  /\ ("processing_finished" ∉ files bracketed)
  /\ (forall f, f ∈ ({["features-000000"; "features-000001"]} : gset string)
                <-> f ∈ files bracketed /\ is_chunk_name f)
  /\ Z.min (Z.of_nat (size ({["features-000000"; "features-000001"]}
                            : gset string)) * 4) 10 = 8
  /\ get cache_bracketed "[a]"
     = Ok (FeaturesSchema_dump
             (<["n_samples_processed" := VInt 0]> ten_docs), 202).
Proof.
  split; [reflexivity|]. split; [by_evaluation|]. split; [by_evaluation|].
  split; [|split; vm_compute; reflexivity].
  intros f. rewrite <- chunk_set_spec.
  replace (list_to_set (glob1 (files bracketed) Glob.features_chunks)
             : gset string)
    with ({["features-000000"; "features-000001"]} : gset string)
    by (vm_compute; reflexivity).
  reflexivity.
Qed.

(** The scenario of the specification: 10 documents, chunks of 4, two
    chunks written: 8 processed; after the third chunk and the switch of
    markers: 10 processed. *)
Example status_scenario_in_progress :
  get cache0 "a"
  = Ok (FeaturesSchema_dump (<["n_samples_processed" := VInt 8]> ten_docs), 202).
Proof. vm_compute. reflexivity. Qed.

Example status_scenario_finished :
  get cache0 "b"
  = Ok (FeaturesSchema_dump (<["n_samples_processed" := VInt 10]> ten_docs), 200).
Proof. vm_compute. reflexivity. Qed.

(** C2: when the two markers are both absent or both present, the status
    query answers the processing-failure error with code 520: not the 202
    of an extraction in progress, and never a feature-set body. *)
Theorem status_failure (cache : gmap string dataset) (dsid : string)
    (fe : dataset) :
  cache !! dsid = Some fe ->
  ("processing" ∈ files fe <-> "processing_finished" ∈ files fe) ->
  get cache dsid = Ok (processing_failed, 520)
  /\ (forall out code, get cache dsid <> Ok (FeaturesSchema_dump out, code))
  /\ (forall b, get cache dsid <> Ok (b, 202)).
Proof.
  intros Hfe Hm.
  assert (E : get cache dsid = Ok (processing_failed, 520)).
  { unfold get, FeatureVectorizer. rewrite Hfe. cbn.
    destruct (decide ("processing" ∈ files fe)) as [Hp|Hp].
    - rewrite (exists_true _ _ Hp), (exists_true _ _ (proj1 Hm Hp)). reflexivity.
    - rewrite (exists_false _ _ Hp).
      rewrite (exists_false fe "processing_finished") by tauto. reflexivity. }
  rewrite E. repeat split; intros; discriminate.
Qed.

Lemma status_failure_witness :
  get cache0 "c" = Ok (processing_failed, 520)
  /\ (forall out code, get cache0 "c" <> Ok (FeaturesSchema_dump out, code))
  /\ (forall b, get cache0 "c" <> Ok (b, 202)).
Proof.
  apply (status_failure cache0 "c" stale).
  - reflexivity.
  - split; intros _; by_evaluation.
Defined.

(** C8: when [processing_finished] is present and [processing] is absent,
    the status query answers 200 and the processed count is the total
    sample count. *)
Theorem status_finished (cache : gmap string dataset) (dsid : string)
    (fe : dataset) (n_samples : value) :
  cache !! dsid = Some fe ->
  "processing_finished" ∈ files fe ->
  "processing" ∉ files fe ->
  pars fe !! "n_samples" = Some n_samples ->
  exists out : dict,
    get cache dsid = Ok (FeaturesSchema_dump out, 200)
    /\ out = <["n_samples_processed" := n_samples]> (pars fe)
    /\ out !! "n_samples_processed" = out !! "n_samples"
    /\ out !! "n_samples" = Some n_samples.
Proof.
  intros Hfe Hf Hp Hns.
  exists (<["n_samples_processed" := n_samples]> (pars fe)).
  split; [|split; [reflexivity|]].
  - unfold get, FeatureVectorizer. rewrite Hfe. cbn.
    rewrite (exists_true _ _ Hf), (exists_false _ _ Hp). cbn.
    unfold getitem. rewrite Hns. reflexivity.
  - rewrite lookup_insert_eq, lookup_insert_ne by discriminate. auto.
Qed.

Lemma status_finished_witness :
  exists out : dict,
    get cache0 "b" = Ok (FeaturesSchema_dump out, 200)
    /\ out = <["n_samples_processed" := VInt 10]> ten_docs
    /\ out !! "n_samples_processed" = out !! "n_samples"
    /\ out !! "n_samples" = Some (VInt 10).
Proof.
  apply (status_finished cache0 "b" finished (VInt 10)).
  - reflexivity.
  - by_evaluation.
  - by_evaluation.
  - reflexivity.
Defined.

End StatusSpec.

(** ** Normalisation of an extraction request *)

Module FeaturesSpec.

Import FeaturesApi Fixtures.


Lemma contains_false (d : dict) (k : string) :
  d !! k = None -> contains d k = false.
Proof. unfold contains. by intros ->. Qed.

Lemma drop_key_delete (key : string) (d : dict) :
  drop_key key d = Ok (delete key d).
Proof.
  unfold drop_key, contains.
  destruct (d !! key) eqn:E; [done|]. by rewrite delete_id.
Qed.

Lemma coerce_key_absent (key : string) (d : dict) :
  d !! key = None -> coerce_key key d = Ok d.
Proof. intros E. unfold coerce_key. by rewrite (contains_false _ _ E). Qed.

#[local] Opaque EPSILON.





Lemma flags_set_other (args : dict) (b : bool) (norm : value) (k : string) :
  k <> "use_idf" -> k <> "norm" -> flags_set args b norm !! k = args !! k.
Proof.
  intros H1 H2. unfold flags_set.
  destruct (eq_str norm "None"); by rewrite !lookup_insert_ne.
Qed.

Lemma post_args_unfold (args : dict) (use_idf norm h : value) (b : bool) :
  args !! "use_idf" = Some use_idf -> gt_zero use_idf = Ok b ->
  args !! "norm" = Some norm ->
  args !! "use_hashing" = Some h ->
  post_args args
  = for_each ["min_df"; "max_df"] coerce_key
      (if truthy h
       then delete "max_df" (delete "min_df" (flags_set args b norm))
       else flags_set args b norm).
Proof.
  intros Hidf Hb Hnorm Hh. unfold post_args, getitem.
  rewrite Hidf. cbn [mbind exc_bind]. rewrite Hb. cbn [mbind exc_bind].
  rewrite lookup_insert_ne, Hnorm by discriminate. cbn [mbind exc_bind].
  fold (flags_set args b norm).
  rewrite flags_set_other, Hh by discriminate. cbn [mbind exc_bind].
  destruct (truthy h); [|done].
  cbn [for_each]. rewrite drop_key_delete. cbn [mbind exc_bind].
  rewrite drop_key_delete. reflexivity.
Qed.

(** C3: with hashing selected, the request is accepted whatever it supplies
    as [min_df] and [max_df], the keyword arguments handed to [preprocess]
    hold neither key, and they are the ones of the same request without
    the two bounds. *)
Theorem hashing_drops_df_bounds (preprocess : dict -> exc (string * dict))
    (args : dict) (use_idf norm h : value) (b : bool) :
  args !! "use_idf" = Some use_idf -> gt_zero use_idf = Ok b ->
  args !! "norm" = Some norm ->
  args !! "use_hashing" = Some h -> truthy h = true ->
  exists cfg : dict,
    post_args args = Ok cfg
    /\ cfg !! "min_df" = None /\ cfg !! "max_df" = None
    /\ post_args (delete "min_df" (delete "max_df" args)) = Ok cfg
    /\ post preprocess args
       = (r ← preprocess cfg;
          filenames ← getitem r.2 "filenames";
          Ok (<["filenames" := filenames]> {["id" := VStr r.1]})).
Proof.
  intros Hidf Hb Hnorm Hh Ht.
  set (cfg := delete "max_df" (delete "min_df" (flags_set args b norm))).
  assert (Hmin : cfg !! "min_df" = None).
  { unfold cfg. rewrite lookup_delete_ne by discriminate. apply lookup_delete_eq. }
  assert (Hmax : cfg !! "max_df" = None) by apply lookup_delete_eq.
  assert (E : for_each ["min_df"; "max_df"] coerce_key cfg = Ok cfg).
  { cbn. rewrite (coerce_key_absent _ _ Hmin). cbn.
    by rewrite (coerce_key_absent _ _ Hmax). }
  assert (E1 : post_args args = Ok cfg).
  { rewrite (post_args_unfold args use_idf norm h b) by done. by rewrite Ht. }
  exists cfg. repeat split; try done.
  - rewrite (post_args_unfold _ use_idf norm h b); try done.
    2-4: by rewrite !lookup_delete_ne by discriminate.
    rewrite Ht.
    replace (delete "max_df" (delete "min_df"
               (flags_set (delete "min_df" (delete "max_df" args)) b norm)))
      with cfg; [done|].
    apply map_eq. intros k. unfold cfg.
    destruct (decide (k = "max_df")) as [->|H1];
      [by rewrite !lookup_delete_eq|].
    rewrite !(lookup_delete_ne _ "max_df") by done.
    destruct (decide (k = "min_df")) as [->|H2];
      [by rewrite !lookup_delete_eq|].
    rewrite !(lookup_delete_ne _ "min_df") by done.
    unfold flags_set. destruct (eq_str norm "None").
    + destruct (decide (k = "norm")) as [->|H3];
        [by rewrite !lookup_insert_eq|].
      rewrite !(lookup_insert_ne _ "norm") by done.
      destruct (decide (k = "use_idf")) as [->|H4];
        [by rewrite !lookup_insert_eq|].
      rewrite !(lookup_insert_ne _ "use_idf") by done.
      by rewrite !lookup_delete_ne.
    + destruct (decide (k = "use_idf")) as [->|H4];
        [by rewrite !lookup_insert_eq|].
      rewrite !(lookup_insert_ne _ "use_idf") by done.
      by rewrite !lookup_delete_ne.
  - unfold post. by rewrite E1.
Qed.

Lemma hashing_drops_df_bounds_witness :
  exists cfg : dict,
    post_args hashing_request = Ok cfg
    /\ cfg !! "min_df" = None /\ cfg !! "max_df" = None
    /\ post_args (delete "min_df" (delete "max_df" hashing_request)) = Ok cfg
    /\ post preprocess0 hashing_request
       = (r ← preprocess0 cfg;
          filenames ← getitem r.2 "filenames";
          Ok (<["filenames" := filenames]> {["id" := VStr r.1]})).
Proof.
  apply (hashing_drops_df_bounds preprocess0 hashing_request
           (VInt 1) (VStr "l2") (VBool true) true); reflexivity.
Defined.

(** The scenario of the specification: hashing with [max_df=50] supplied;
    the effective configuration has no [max_df]. *)
Example hashing_scenario :
  post_args hashing_request
  = Ok (<["use_hashing" := VBool true]> (<["use_idf" := VBool true]> (
        <["norm" := VStr "l2"]> (<["data_dir" := VStr "/data"]> ∅)))).
Proof. vm_compute. reflexivity. Qed.




(** [min_df=0.5] stays a fraction, [max_df=50.7] becomes 50. *)
Example counting_scenario :
  post_args counting_request
  = Ok (<["use_hashing" := VBool false]> (<["min_df" := VFloat 0.5]> (
        <["max_df" := VInt 50]> (<["use_idf" := VBool true]> (
        <["norm" := VStr "l2"]> (<["data_dir" := VStr "/data"]> ∅)))))).
Proof. vm_compute. reflexivity. Qed.

Example int_truncates :
  int_of_float 50.7 = Ok 50 /\ int_of_float (-2.5) = Ok (-2)
  /\ int_of_float 3 = Ok 3 /\ int_of_float infinity = Raise OverflowError.
Proof. vm_compute. auto. Qed.

End FeaturesSpec.

(** ** Declared arguments *)

Module WebargsSpec.

Import Webargs.

(** A request that passes validation gives every declared argument its
    supplied value, of the declared type, or else its default. *)
Lemma parse_lookup (schema : list (string * field)) (req args : dict) :
  parse schema req = Ok args ->
  NoDup schema.*1 ->
  forall name f, (name, f) ∈ schema ->
    match req !! name with
    | Some v => has_type v (kind f) = true /\ args !! name = Some v
    | None => args !! name = missing f
    end.
Proof.
  revert args. induction schema as [|[n g] rest IH]; intros args Hp Hnd name f Hin.
  - by apply elem_of_nil in Hin.
  - cbn in Hp. destruct (parse rest req) as [args'|e] eqn:Hrest; [|discriminate].
    cbn in Hp. cbn in Hnd. apply NoDup_cons in Hnd as [Hn Hnd].
    apply elem_of_cons in Hin as [Heq|Hin].
    + injection Heq as ? ?. subst name f.
      destruct (req !! n) as [v|] eqn:Hv.
      * destruct (has_type v (kind g)) eqn:Ht; [|discriminate].
        injection Hp as <-. by rewrite lookup_insert_eq.
      * destruct (missing g) as [d|] eqn:Hm.
        -- injection Hp as <-. by rewrite lookup_insert_eq.
        -- destruct (required g); [discriminate|]. injection Hp as <-.
           clear IH Hnd. revert args' Hrest.
           induction rest as [|[n' g'] rest IH]; intros args' Hrest.
           ++ cbn in Hrest. by injection Hrest as <-.
           ++ cbn in Hrest.
              destruct (parse rest req) as [a|] eqn:Ha; [|discriminate].
              cbn in Hrest. cbn in Hn. apply not_elem_of_cons in Hn as [Hne Hn].
              specialize (IH Hn a eq_refl).
              destruct (req !! n') as [v'|];
                [destruct (has_type v' (kind g')); [|discriminate]
                |destruct (missing g');
                   [|destruct (required g'); [discriminate|]]];
                injection Hrest as <-; try done;
                by rewrite lookup_insert_ne.
    + assert (Hne : n <> name).
      { intros ->. apply Hn. apply list_elem_of_fmap. by exists (name, f). }
      specialize (IH args' eq_refl Hnd name f Hin).
      assert (Hk : forall a, args = <[n := a]> args' -> args !! name = args' !! name).
      { intros a ->. by rewrite lookup_insert_ne. }
      destruct (req !! n) as [v|];
        [destruct (has_type v (kind g)); [|discriminate]
        |destruct (missing g); [|destruct (required g); [discriminate|]]];
        injection Hp as Hp; symmetry in Hp;
        try (rewrite (Hk _ Hp)); try (subst args); exact IH.
Qed.

Lemma has_type_Str (v : value) : has_type v Str = true -> exists s, v = VStr s.
Proof. destruct v; try discriminate. eauto. Qed.

Lemma has_type_Boolean (v : value) :
  has_type v Boolean = true -> exists b, v = VBool b.
Proof. destruct v; try discriminate. eauto. Qed.

(** A required argument without default is in every accepted request. *)
Lemma parse_required (schema : list (string * field)) (req args : dict)
    (name : string) (t : ftype) :
  parse schema req = Ok args ->
  (name, arg_required t) ∈ schema ->
  exists v, req !! name = Some v.
Proof.
  revert args. induction schema as [|[n g] rest IH]; intros args Hp Hin.
  - by apply elem_of_nil in Hin.
  - cbn in Hp. destruct (parse rest req) as [args'|e] eqn:Hrest; [|discriminate].
    apply elem_of_cons in Hin as [Heq|Hin]; [|by eapply IH].
    injection Heq as ? ?. subst n g. cbn in Hp.
    destruct (req !! name) as [v|]; [eauto | discriminate].
Qed.

End WebargsSpec.

(** ** Clustering *)

Module ClusteringSpec.

Import Webargs WebargsSpec Fixtures.

Lemma clustering_schema_NoDup (m : clustering_method) :
  NoDup (clustering_schema m).*1.
Proof. destruct m; apply (bool_decide_unpack _); vm_compute; exact I. Qed.

Lemma clustering_schema_lsi (m : clustering_method) :
  ("lsi_components", arg_missing Int (VInt (-1))) ∈ clustering_schema m.
Proof. destruct m; cbn; set_solver. Qed.

Lemma clustering_schema_dsid (m : clustering_method) :
  ("dataset_id", arg_required Str) ∈ clustering_schema m.
Proof. destruct m; cbn; set_solver. Qed.

(** C10: in each of the four clustering handlers, a request accepted by
    the handler's schema whose [lsi_components] is omitted (default -1) or
    negative reaches the fit operation with [lsi_components = None], the
    other arguments as parsed and [dataset_id] taken out. *)
Theorem negative_lsi_components_is_None `{cl : Clustering}
    (m : clustering_method) (req args : dict) :
  parse (clustering_schema m) req = Ok args ->
  (req !! "lsi_components" = None
   \/ exists z, req !! "lsi_components" = Some (VInt z) /\ z < 0) ->
  exists (dsid : string) (kwargs : dict),
    req !! "dataset_id" = Some (VStr dsid)
    /\ kwargs = delete "dataset_id" (<["lsi_components" := VNone]> args)
    /\ kwargs !! "lsi_components" = Some VNone
    /\ clustering_post m req
       = (mid ← clustering_fit m dsid kwargs; Ok {["id" := VStr mid]}).
Proof.
  intros Hp Hlsi.
  pose proof (parse_lookup _ _ _ Hp (clustering_schema_NoDup m)) as L.
  pose proof (L _ _ (clustering_schema_lsi m)) as Llsi.
  pose proof (L _ _ (clustering_schema_dsid m)) as Ldsid.
  destruct (parse_required _ _ _ _ _ Hp (clustering_schema_dsid m)) as [v Hv].
  rewrite Hv in Ldsid. destruct Ldsid as [Ht Hd].
  destruct (has_type_Str v Ht) as [dsid ->].
  assert (Hneg : exists z, args !! "lsi_components" = Some (VInt z) /\ z < 0).
  { destruct Hlsi as [E | (z & E & Hz)]; rewrite E in Llsi.
    - exists (-1). split; [exact Llsi | lia].
    - exists z. split; [apply Llsi | exact Hz]. }
  destruct Hneg as (z & Hz & Hlt).
  exists dsid, (delete "dataset_id" (<["lsi_components" := VNone]> args)).
  split; [done|]. split; [done|]. split.
  { rewrite lookup_delete_ne by discriminate. apply lookup_insert_eq. }
  assert (Hb : (z <? 0) = true) by by apply Z.ltb_lt.
  destruct m; cbn [clustering_post clustering_fit clustering_schema] in *;
    unfold KmeanClusteringApi_post, BirchClusteringApi_post,
      WardHCClusteringApi_post, DBSCANClusteringApi_post;
    rewrite Hp; cbn [mbind exc_bind];
    unfold getitem; rewrite Hz; cbn [mbind exc_bind lt_zero]; rewrite Hb;
    rewrite lookup_insert_ne, Hd by discriminate;
    cbn [mbind exc_bind as_str]; unfold delitem, contains;
    rewrite lookup_insert_ne, Hd by discriminate; reflexivity.
Qed.

Lemma negative_lsi_components_is_None_witness :
  exists (dsid : string) (kwargs : dict),
    kmeans_request !! "dataset_id" = Some (VStr dsid)
    /\ kwargs = delete "dataset_id"
                  (<["lsi_components" := VNone]> kmeans_parsed)
    /\ kwargs !! "lsi_components" = Some VNone
    /\ clustering_post (cl := echo_clustering) KMeans kmeans_request
       = (mid ← clustering_fit (cl := echo_clustering) KMeans dsid kwargs;
          Ok {["id" := VStr mid]}).
Proof.
  apply (negative_lsi_components_is_None (cl := echo_clustering)
           KMeans kmeans_request kmeans_parsed).
  - vm_compute. reflexivity.
  - left. reflexivity.
Defined.

(** A non-negative [lsi_components] is handed on as it is. *)
Lemma nonnegative_lsi_components_kept `{cl : Clustering}
    (m : clustering_method) (req args : dict) (z : Z) :
  parse (clustering_schema m) req = Ok args ->
  req !! "lsi_components" = Some (VInt z) -> 0 <= z ->
  exists dsid : string,
    req !! "dataset_id" = Some (VStr dsid)
    /\ clustering_post m req
       = (mid ← clustering_fit m dsid (delete "dataset_id" args);
          Ok {["id" := VStr mid]}).
Proof.
  intros Hp Hlsi Hz0.
  pose proof (parse_lookup _ _ _ Hp (clustering_schema_NoDup m)) as L.
  pose proof (L _ _ (clustering_schema_lsi m)) as Llsi.
  pose proof (L _ _ (clustering_schema_dsid m)) as Ldsid.
  destruct (parse_required _ _ _ _ _ Hp (clustering_schema_dsid m)) as [v Hv].
  rewrite Hv in Ldsid. destruct Ldsid as [Ht Hd].
  destruct (has_type_Str v Ht) as [dsid ->].
  rewrite Hlsi in Llsi. destruct Llsi as [_ Hz].
  exists dsid. split; [done|].
  assert (Hb : (z <? 0) = false) by by apply Z.ltb_ge.
  destruct m; cbn [clustering_post clustering_fit clustering_schema] in *;
    unfold KmeanClusteringApi_post, BirchClusteringApi_post,
      WardHCClusteringApi_post, DBSCANClusteringApi_post;
    rewrite Hp; cbn [mbind exc_bind];
    unfold getitem; rewrite Hz; cbn [mbind exc_bind lt_zero]; rewrite Hb;
    rewrite Hd; cbn [mbind exc_bind as_str]; unfold delitem, contains;
    rewrite Hd; reflexivity.
Qed.

(** The keyword arguments each handler passes for a request that leaves
    [lsi_components] out. *)
Example kmeans_default :
  KmeanClusteringApi_post (cl := echo_clustering) kmeans_request
  = Ok {["id" := VStr "k_means(d0, lsi_components=None)"]}.
Proof. vm_compute. reflexivity. Qed.

Example dbscan_negative :
  DBSCANClusteringApi_post (cl := echo_clustering)
    (<["lsi_components" := VInt (-7)]> (<["dataset_id" := VStr "d0"]> ∅))
  = Ok {["id" := VStr "dbscan(d0, lsi_components=None)"]}.
Proof. vm_compute. reflexivity. Qed.

Example birch_positive :
  BirchClusteringApi_post (cl := echo_clustering)
    (<["lsi_components" := VInt 20]> kmeans_request)
  = Ok {["id" := VStr "birch(d0, lsi_components=20)"]}.
Proof. vm_compute. reflexivity. Qed.

End ClusteringSpec.

(** ** Training scores of a categorization model *)

Module ModelsSpec.

Import Webargs WebargsSpec ModelsApi Fixtures.

Lemma models_schema_NoDup : NoDup _models_api_post_args.*1.
Proof. apply (bool_decide_unpack _). vm_compute. exact I. Qed.

Lemma no_scores_fields (id : value) (k : string) :
  k ∈ metric_fields -> (<["id" := id]> no_scores) !! k = Some (VInt (-1)).
Proof.
  unfold metric_fields. rewrite !elem_of_cons, elem_of_nil.
  intros [->|[->|[->|[->|[->|[]]]]]]; reflexivity.
Qed.

(** The call that [post] makes to the trainer. *)
Lemma post_train (train : string -> option string -> dict -> exc Categorizer)
    (req args : dict) :
  parse _models_api_post_args req = Ok args ->
  exists (dsid : string) (flag : bool),
    req !! "dataset_id" = Some (VStr dsid)
    /\ args !! "training_scores" = Some (VBool flag)
    /\ (req !! "training_scores" = None -> flag = true)
    /\ (forall b, req !! "training_scores" = Some (VBool b) -> flag = b)
    /\ post train req
       = (cat ← train dsid
                  (if truthy (default (VBool true) (req !! "cv"))
                   then Some "fast" else None)
                  (delete "training_scores" (delete "cv"
                     (delete "dataset_id" args)));
          res ← (if flag then
                   Y_res ← predict cat;
                   Ok (Scoring.classification_score
                         (X_train cat) (Y_train cat) (filenames cat) Y_res)
                 else Ok no_scores);
          Ok (<["id" := VStr (mid cat)]> res)).
Proof.
  intros Hp.
  pose proof (parse_lookup _ _ _ Hp models_schema_NoDup) as L.
  assert (Hd := L "dataset_id" (arg_required Str)).
  assert (Hcv := L "cv" (arg_missing Boolean (VBool true))).
  assert (Hts := L "training_scores" (arg_missing Boolean (VBool true))).
  destruct (parse_required _ _ _ "dataset_id" Str Hp) as [v Hv];
    [cbn; set_solver|].
  rewrite Hv in Hd. destruct Hd as [Ht Hd]; [cbn; set_solver|].
  destruct (has_type_Str v Ht) as [dsid ->].
  assert (Hcv' : exists c, args !! "cv" = Some (VBool c)
                  /\ default (VBool true) (req !! "cv") = VBool c).
  { destruct (req !! "cv") as [c|].
    - destruct Hcv as [Hc1 Hc2]; [cbn; set_solver|].
      destruct (has_type_Boolean c Hc1) as [b ->]. eauto.
    - exists true. split; [apply Hcv; cbn; set_solver | done]. }
  destruct Hcv' as (c & Hc & Hcd).
  assert (Hts' : exists flag, args !! "training_scores" = Some (VBool flag)
                  /\ (req !! "training_scores" = None -> flag = true)
                  /\ (forall b, req !! "training_scores" = Some (VBool b)
                        -> flag = b)).
  { destruct (req !! "training_scores") as [t|].
    - destruct Hts as [Ht1 Ht2]; [cbn; set_solver|].
      destruct (has_type_Boolean t Ht1) as [b ->].
      exists b. split; [done|]. split; [done|]. by intros ? [= ->].
    - exists true. split; [apply Hts; cbn; set_solver|]. split; [done|].
      by intros. }
  destruct Hts' as (flag & Hf & Hf1 & Hf2).
  exists dsid, flag. split; [done|]. split; [done|]. split; [done|].
  split; [done|].
  unfold post. rewrite Hp. cbn [mbind exc_bind].
  unfold getitem. rewrite Hf, Hd, Hc. cbn [mbind exc_bind as_str for_each].
  unfold delitem, contains.
  rewrite Hd. cbn [mbind exc_bind].
  rewrite lookup_delete_ne, Hc by discriminate. cbn [mbind exc_bind].
  rewrite !lookup_delete_ne, Hf by discriminate. cbn [mbind exc_bind].
  rewrite Hcd. cbn [truthy].
  destruct (train dsid _ _); reflexivity.
Qed.

(** C5, as stated, fails: a training request that does not mention
    [training_scores] gets the metrics computed, since the argument is
    declared with [missing=True]. *)
Lemma scores_computed_when_omitted :
  training_request !! "training_scores" = None
  /\ (post train0 training_request ≫= fun res => getitem res "recall")
     = Ok (VRat 1)
  /\ ~ scores_only_on_request.
Proof.
  split; [reflexivity|]. split; [vm_compute; reflexivity|].
  intros H.
  destruct (post train0 training_request) as [res|] eqn:E;
    [|vm_compute in E; discriminate].
  specialize (H train0 training_request res).
  assert (Hr : res !! "recall" = Some (VInt (-1))).
  { apply H; [discriminate | exact E |].
    apply (bool_decide_unpack _). vm_compute. exact I. }
  vm_compute in E. injection E as <-. vm_compute in Hr. discriminate.
Qed.

(** C5, amended: the training scores are computed unless the request sets
    [training_scores] to false (an omitted [training_scores] defaults to
    true); when it is false, the result holds the five metric fields, each
    -1, next to the model id. *)
Theorem training_scores_unless_disabled
    (train : string -> option string -> dict -> exc Categorizer)
    (req args : dict) (dsid : string) (cat : Categorizer) :
  parse _models_api_post_args req = Ok args ->
  req !! "dataset_id" = Some (VStr dsid) ->
  train dsid
        (if truthy (default (VBool true) (req !! "cv"))
         then Some "fast" else None)
        (delete "training_scores" (delete "cv" (delete "dataset_id" args)))
  = Ok cat ->
  (req !! "training_scores" = Some (VBool false) ->
     exists res, post train req = Ok res
       /\ res = <["id" := VStr (mid cat)]> no_scores
       /\ forall k, k ∈ metric_fields -> res !! k = Some (VInt (-1)))
  /\ (req !! "training_scores" = None
      \/ req !! "training_scores" = Some (VBool true) ->
     post train req
     = (Y_res ← predict cat;
        Ok (<["id" := VStr (mid cat)]>
              (Scoring.classification_score
                 (X_train cat) (Y_train cat) (filenames cat) Y_res)))).
Proof.
  intros Hp Hd Ht.
  destruct (post_train train req args Hp)
    as (dsid' & flag & Hd' & _ & Hnone & Hsome & E).
  rewrite Hd in Hd'. injection Hd' as <-.
  rewrite Ht in E. cbn [mbind exc_bind] in E.
  split.
  - intros Hreq. rewrite (Hsome false Hreq) in E.
    exists (<["id" := VStr (mid cat)]> no_scores).
    split; [exact E|]. split; [done|]. apply no_scores_fields.
  - intros [Hreq|Hreq].
    + rewrite (Hnone Hreq) in E. rewrite E.
      destruct (predict cat); reflexivity.
    + rewrite (Hsome true Hreq) in E. rewrite E.
      destruct (predict cat); reflexivity.
Qed.

Lemma training_scores_unless_disabled_witness :
  (quiet_request !! "training_scores" = Some (VBool false) ->
     exists res, post train0 quiet_request = Ok res
       /\ res = <["id" := VStr (mid cat0)]> no_scores
       /\ forall k, k ∈ metric_fields -> res !! k = Some (VInt (-1)))
  /\ (quiet_request !! "training_scores" = None
      \/ quiet_request !! "training_scores" = Some (VBool true) ->
     post train0 quiet_request
     = (Y_res ← predict cat0;
        Ok (<["id" := VStr (mid cat0)]>
              (Scoring.classification_score
                 (X_train cat0) (Y_train cat0) (filenames cat0) Y_res)))).
Proof.
  apply (training_scores_unless_disabled train0 quiet_request
           quiet_parsed "d0" cat0).
  - vm_compute. reflexivity.
  - reflexivity.
  - reflexivity.
Defined.

Example quiet_scenario :
  post train0 quiet_request = Ok (<["id" := VStr "m0"]> no_scores).
Proof. vm_compute. reflexivity. Qed.

Example default_scenario :
  post train0 training_request
  = Ok (<["id" := VStr "m0"]> (<["recall" := VRat 1]> (
        <["precision" := VRat 1]> (<["f1" := VRat 1]> (
        <["auc_roc" := VRat 1]> (<["average_precision" := VRat 1]> ∅)))))).
Proof. vm_compute. reflexivity. Qed.

End ModelsSpec.

(** ** Scoring a prediction against itself *)

Module ScoringSpec.

Import Scoring.

Local Open Scope Q_scope.

Lemma countb_map {A B} (f : B -> bool) (g : A -> B) (l : list A) :
  countb f (map g l) = countb (fun x => f (g x)) l.
Proof.
  unfold countb. induction l as [|x l IH]; [done|].
  cbn. destruct (f (g x)); cbn; by rewrite IH.
Qed.

Lemma countb_ext {A} (f g : A -> bool) (l : list A) :
  (forall x, f x = g x) -> countb f l = countb g l.
Proof.
  intros H. unfold countb. induction l as [|x l IH]; [done|].
  cbn. rewrite H. destruct (g x); cbn; by rewrite IH.
Qed.

Lemma countb_pos {A} (f : A -> bool) (l : list A) (x : A) :
  x ∈ l -> f x = true -> (0 < countb f l)%nat.
Proof.
  unfold countb. induction l as [|y l IH]; intros Hin Hx.
  - by apply elem_of_nil in Hin.
  - cbn. apply elem_of_cons in Hin as [<-|Hin].
    + rewrite Hx. cbn. lia.
    + destruct (f y); cbn; [lia | by apply IH].
Qed.

Lemma ratio_self (n : nat) : (0 < n)%nat -> ratio n n = 1.
Proof.
  intros Hn. destruct n as [|n]; [lia|]. unfold ratio.
  change 1 with (Qred 1). apply Qred_complete.
  unfold Qeq. cbn [Qnum Qden]. lia.
Qed.

(** Aligning a labelled set with itself pairs every label with itself. *)
Lemma align_self (idx : list string) (Y : list bool) :
  NoDup idx -> length idx = length Y ->
  align idx Y idx Y = map (fun y => (y, y)) Y.
Proof.
  intros Hnd Hlen. unfold align.
  set (ref := list_to_map (zip idx Y) : gmap string bool).
  assert (Hfst : (zip idx Y).*1 = idx) by (apply fst_zip; lia).
  assert (Hsnd : (zip idx Y).*2 = Y) by (apply snd_zip; lia).
  assert (Href : forall p, p ∈ zip idx Y -> ref !! p.1 = Some p.2).
  { intros [i y] Hin. apply elem_of_list_to_map_1; [by rewrite Hfst | done]. }
  rewrite <- Hsnd at 2. clearbody ref. clear Hfst Hsnd.
  induction (zip idx Y) as [|p l IH]; [done|].
  cbn. rewrite (Href p) by apply list_elem_of_here. cbn.
  f_equal. apply IH. intros q Hq. apply Href. by apply list_elem_of_further.
Qed.

(** The thresholds of 0/1 scores. *)
Lemma thresholds_binary (Y : list bool) :
  thresholds (map b2q Y)
  = ((if existsb (fun y => y) Y then [1] else [])
     ++ (if existsb negb Y then [0] else []))%list.
Proof.
  induction Y as [|y Y IH]; [done|].
  unfold thresholds in *. cbn [map foldr existsb]. rewrite IH.
  destruct y, (existsb (fun y => y) Y), (existsb negb Y); reflexivity.
Qed.

Lemma existsb_elem (f : bool -> bool) (b : bool) (Y : list bool) :
  b ∈ Y -> f b = true -> existsb f Y = true.
Proof.
  intros H Hb. apply existsb_exists. exists b.
  split; [by apply list_elem_of_In | done].
Qed.

Section Self.
Variable Y : list bool.
Hypothesis has_pos : true ∈ Y.
Hypothesis has_neg : false ∈ Y.

Let pairs := map (fun y : bool => (y, y)) Y.
Let ranked := map (fun p : bool * bool => (p.1, b2q p.2)) pairs.

Lemma self_positives : (0 < countb (fun y : bool => y) Y)%nat.
Proof using has_pos. by apply (countb_pos (fun y => y) Y true). Qed.

Lemma self_recall : recall_score pairs = 1.
Proof using has_pos.
  unfold recall_score, pairs. rewrite !countb_map. cbn [fst snd].
  rewrite (countb_ext (fun x => x && x) (fun x => x)) by (by intros []).
  apply ratio_self, self_positives.
Qed.

Lemma self_precision : precision_score pairs = 1.
Proof using has_pos.
  unfold precision_score, pairs. rewrite !countb_map. cbn [fst snd].
  rewrite (countb_ext (fun x => x && x) (fun x => x)) by (by intros []).
  apply ratio_self, self_positives.
Qed.

Lemma self_f1 : f1_score pairs = 1.
Proof using has_pos.
  unfold f1_score. rewrite self_precision, self_recall. reflexivity.
Qed.

Lemma self_not_degenerate :
  (countb fst pairs =? 0)%nat || (countb (fun p => negb p.1) pairs =? 0)%nat
  = false.
Proof using has_pos has_neg.
  unfold pairs. rewrite !countb_map. cbn [fst].
  pose proof (countb_pos (fun y : bool => y) Y true has_pos eq_refl) as Hp.
  pose proof (countb_pos negb Y false has_neg eq_refl) as Hn.
  apply orb_false_iff. split; apply Nat.eqb_neq; intros E.
  - change (countb (fun y : bool => y) Y = 0%nat) in E. lia.
  - change (countb negb Y = 0%nat) in E. lia.
Qed.

Lemma self_thresholds : thresholds ranked.*2 = [1; 0].
Proof using has_pos has_neg.
  unfold ranked, pairs. rewrite <- !list_fmap_compose.
  change (thresholds (map b2q Y) = [1; 0]).
  rewrite thresholds_binary.
  rewrite (existsb_elem (fun y => y) true Y has_pos eq_refl).
  by rewrite (existsb_elem negb false Y has_neg eq_refl).
Qed.

Lemma self_recall_at (t : Q) :
  Qle_bool t 1 = true -> recall_at ranked t = 1.
Proof using has_pos.
  intros Ht. unfold recall_at, ranked, pairs. rewrite !countb_map. cbn [fst snd].
  rewrite (countb_ext (fun x => x && Qle_bool t (b2q x)) (fun x => x)).
  - apply ratio_self, self_positives.
  - intros []; cbn [b2q andb]; [exact Ht | done].
Qed.

Lemma self_precision_at_top : precision_at ranked 1 = 1.
Proof using has_pos.
  unfold precision_at, ranked, pairs. rewrite !countb_map. cbn [fst snd].
  rewrite (countb_ext (fun x => x && Qle_bool 1 (b2q x)) id)
    by (by intros []).
  rewrite (countb_ext (fun x => Qle_bool 1 (b2q x)) (fun x => x)) by (by intros []).
  apply ratio_self, self_positives.
Qed.

Lemma self_average_precision : average_precision_score ranked = 1.
Proof using has_pos has_neg.
  unfold average_precision_score. rewrite self_thresholds.
  cbn [ap_sum]. rewrite !self_recall_at by reflexivity.
  rewrite self_precision_at_top.
  change 1 with (Qred 1) at 5. apply Qred_complete. ring.
Qed.

End Self.

(** C9: for distinct identifiers with one label each, at least one
    positive and at least one negative, scoring the labels against
    themselves gives recall, precision, f1 and average precision 1. *)
Theorem classification_score_self (idx : list string) (Y : list bool) :
  NoDup idx -> length idx = length Y ->
  true ∈ Y -> false ∈ Y ->
  let s := classification_score idx Y idx Y in
  s !! "recall" = Some (VRat 1)
  /\ s !! "precision" = Some (VRat 1)
  /\ s !! "f1" = Some (VRat 1)
  /\ s !! "average_precision" = Some (VRat 1).
Proof.
  intros Hnd Hlen Hpos Hneg s. subst s. unfold classification_score.
  rewrite (align_self idx Y Hnd Hlen).
  rewrite (self_not_degenerate Y Hpos Hneg).
  rewrite (self_recall Y Hpos), (self_precision Y Hpos), (self_f1 Y Hpos).
  rewrite (self_average_precision Y Hpos Hneg).
  repeat split; reflexivity.
Qed.

Lemma classification_score_self_witness :
  let s := classification_score ["a.txt"; "b.txt"; "c.txt"] [true; false; true]
                                ["a.txt"; "b.txt"; "c.txt"] [true; false; true] in
  s !! "recall" = Some (VRat 1)
  /\ s !! "precision" = Some (VRat 1)
  /\ s !! "f1" = Some (VRat 1)
  /\ s !! "average_precision" = Some (VRat 1).
Proof.
  apply (classification_score_self ["a.txt"; "b.txt"; "c.txt"] [true; false; true]).
  - apply (bool_decide_unpack _). vm_compute. exact I.
  - reflexivity.
  - apply (bool_decide_unpack _). vm_compute. exact I.
  - apply (bool_decide_unpack _). vm_compute. exact I.
Defined.

(** A prediction with one false positive and one false negative among
    four documents, against the reference. *)
Example classification_score_mixed :
  classification_score ["a"; "b"; "c"; "d"] [true; true; false; false]
                       ["d"; "c"; "b"; "a"] [false; true; false; true]
  = <["recall" := VRat (1 # 2)]> (<["precision" := VRat (1 # 2)]> (
    <["f1" := VRat (1 # 2)]> (<["auc_roc" := VRat (1 # 2)]> (
    <["average_precision" := VRat (1 # 2)]> ∅)))).
Proof. vm_compute. reflexivity. Qed.

(** Without a negative example the ranking metrics are the sentinel. *)
Example classification_score_degenerate :
  classification_score ["a"; "b"] [true; true] ["a"; "b"] [true; false]
  = <["recall" := VRat (1 # 2)]> (<["precision" := VRat 1]> (
    <["f1" := VRat (2 # 3)]> (<["auc_roc" := VInt (-1)]> (
    <["average_precision" := VInt (-1)]> ∅)))).
Proof. vm_compute. reflexivity. Qed.

End ScoringSpec.

(** ** Relevance by nearest exemplar *)

Module LsiSpec.

Import Scoring LSI Fixtures.

Local Open Scope Q_scope.

Lemma Qltb_lt (x y : Q) : Qltb x y = true <-> x < y.
Proof.
  unfold Qltb. rewrite negb_true_iff, <- not_true_iff_false, Qle_bool_iff.
  split; [apply Qnot_le_lt | apply Qlt_not_le].
Qed.

Section Model.
Context {vec : Type}.
Variable distance : vec -> vec -> Q.
Implicit Types docs : list (string * vec).

Lemma nearest_distance_unique docs names v d d' :
  nearest_distance distance docs names v d -> nearest_distance distance docs names v d' -> d == d'.
Proof.
  intros [(j & w & Hw & E) L] [(j' & w' & Hw' & E') L'].
  apply Qle_antisym.
  - rewrite <- E'. by eapply L.
  - rewrite <- E. by eapply L'.
Qed.

Lemma index_of_Some docs n j w :
  index_of n docs = Some (j, w) -> docs !! j = Some (n, w).
Proof.
  revert j. induction docs as [|[m u] docs IH]; intros j H; [done|].
  cbn in H. destruct (String.eqb_spec m n) as [->|Hne].
  - by injection H as <- <-.
  - destruct (index_of n docs) as [[j' w']|]; [|done].
    cbn in H. injection H as <- <-. cbn. by apply IH.
Qed.

Lemma index_of_elem docs n :
  n ∈ docs.*1 -> exists j w, index_of n docs = Some (j, w).
Proof.
  induction docs as [|[m u] docs IH]; intros H.
  - by apply elem_of_nil in H.
  - cbn. destruct (String.eqb_spec m n) as [->|Hne]; [eauto|].
    cbn in H. apply elem_of_cons in H as [->|H]; [done|].
    destruct (IH H) as (j & w & ->). cbn. eauto.
Qed.

Lemma index_of_NoDup docs n j w :
  NoDup docs.*1 -> docs !! j = Some (n, w) -> index_of n docs = Some (j, w).
Proof.
  revert j. induction docs as [|[m u] docs IH]; intros j Hnd H; [done|].
  cbn in Hnd. apply NoDup_cons in Hnd as [Hm Hnd]. cbn.
  destruct j as [|j]; cbn in H.
  - injection H as -> ->. by rewrite String.eqb_refl.
  - destruct (String.eqb_spec m n) as [->|Hne].
    + exfalso. apply Hm. apply list_elem_of_fmap. exists (n, w).
      split; [done|]. by eapply list_elem_of_lookup_2.
    + by rewrite (IH j Hnd H).
Qed.

(** Resolved exemplars are the exemplars. *)
Lemma resolve_ok docs names :
  NoDup docs.*1 -> names ⊆ docs.*1 ->
  exists ex, resolve names docs = Ok ex
    /\ length ex = length names
    /\ forall j w, (j, w) ∈ ex <-> exemplar docs names j w.
Proof.
  intros Hnd. induction names as [|n names IH]; intros Hsub.
  - exists []. split; [done|]. split; [done|]. intros j w. split.
    + intros H. by apply elem_of_nil in H.
    + intros (n & H & _). by apply elem_of_nil in H.
  - destruct IH as (ex & E & Hlen & Hex).
    { intros x Hx. apply Hsub. by apply list_elem_of_further. }
    destruct (index_of_elem docs n) as (j0 & w0 & E0).
    { apply Hsub. apply list_elem_of_here. }
    exists ((j0, w0) :: ex). cbn. rewrite E0, E. cbn.
    split; [done|]. split; [by rewrite Hlen|].
    intros j w. rewrite elem_of_cons, Hex. unfold exemplar. split.
    + intros [[= -> ->]|(m & Hm & Hd)].
      * exists n. split; [apply list_elem_of_here | by apply index_of_Some].
      * exists m. split; [by apply list_elem_of_further | done].
    + intros (m & Hm & Hd). apply elem_of_cons in Hm as [->|Hm].
      * left. rewrite (index_of_NoDup docs n j w Hnd Hd) in E0.
        by injection E0 as -> ->.
      * right. eauto.
Qed.

Lemma nearest_spec v (ex : list (nat * vec)) d i :
  nearest distance v ex = Some (d, i) ->
  (exists w, (i, w) ∈ ex /\ d = distance v w)
  /\ forall j w, (j, w) ∈ ex -> d <= distance v w.
Proof.
  revert d i. induction ex as [|[k u] ex IH]; intros d i H; [done|].
  cbn in H. destruct (nearest distance v ex) as [[d' i']|] eqn:E.
  - destruct (IH d' i' eq_refl) as [(w' & Hw' & Ed') Hmin].
    destruct (Qle_bool (distance v u) d') eqn:Hle.
    + injection H as <- <-. apply Qle_bool_iff in Hle. split.
      * exists u. split; [apply list_elem_of_here | done].
      * intros j w Hin. apply elem_of_cons in Hin as [[= -> ->]|Hin].
        -- apply Qle_refl.
        -- eapply Qle_trans; [exact Hle | by eapply Hmin].
    + injection H as <- <-.
      assert (Hlt : d' < distance v u).
      { apply Qnot_le_lt. intros Hc. apply Qle_bool_iff in Hc. congruence. }
      split.
      * exists w'. split; [by apply list_elem_of_further | done].
      * intros j w Hin. apply elem_of_cons in Hin as [[= -> ->]|Hin].
        -- by apply Qlt_le_weak.
        -- by eapply Hmin.
  - injection H as <- <-. destruct ex as [|[k' u'] ex]; [|cbn in E].
    + split.
      * exists u. split; [apply list_elem_of_here | done].
      * intros j w Hin. apply elem_of_cons in Hin as [[= -> ->]|Hin].
        -- apply Qle_refl.
        -- by apply elem_of_nil in Hin.
    + destruct (nearest distance v ex) as [[? ?]|];
        [destruct (Qle_bool _ _)|]; discriminate.
Qed.

Lemma nearest_is_Some v (ex : list (nat * vec)) :
  ex <> [] -> exists d i, nearest distance v ex = Some (d, i).
Proof.
  destruct ex as [|[k u] ex]; [done|]. intros _. cbn.
  destruct (nearest distance v ex) as [[d' i']|];
    [destruct (Qle_bool _ _)|]; eauto.
Qed.

Lemma classify_all_rows rel nrel (vs : list vec) :
  rel <> [] -> nrel <> [] ->
  exists rows, classify_all distance rel nrel vs = Ok rows
    /\ length rows = length vs
    /\ forall i v, vs !! i = Some v ->
         exists r, rows !! i = Some r /\ classify distance rel nrel v = Ok r.
Proof.
  intros Hrel Hnrel. induction vs as [|v vs (rows & E & Hlen & Hrows)].
  - exists []. split; [done|]. split; [done|].
    intros i v H. by rewrite lookup_nil in H.
  - destruct (nearest_is_Some v rel Hrel) as (dp & ip & Ep).
    destruct (nearest_is_Some v nrel Hnrel) as (dn & i_n & En).
    assert (Ec : exists r, classify distance rel nrel v = Ok r).
    { unfold classify. rewrite Ep, En. eauto. }
    destruct Ec as [r Ec]. exists (r :: rows). cbn. rewrite Ec, E. cbn.
    split; [done|]. split; [by rewrite Hlen|].
    intros [|i] u H; cbn in H.
    + injection H as <-. eauto.
    + by apply Hrows.
Qed.

Lemma classify_explains docs relevant non_relevant rel nrel v r :
  (forall j w, (j, w) ∈ rel <-> exemplar docs relevant j w) ->
  (forall j w, (j, w) ∈ nrel <-> exemplar docs non_relevant j w) ->
  classify distance rel nrel v = Ok r ->
  row_explains distance docs relevant non_relevant v r.
Proof.
  intros Hrel Hnrel H. unfold classify in H.
  destruct (nearest distance v rel) as [[dp ip]|] eqn:Ep; [|done].
  destruct (nearest distance v nrel) as [[dn i_n]|] eqn:En; [|done].
  injection H as <-. cbn.
  destruct (nearest_spec v rel dp ip Ep) as [(wp & Hwp & Edp) Lp].
  destruct (nearest_spec v nrel dn i_n En) as [(wn & Hwn & Edn) Ln].
  apply Hrel in Hwp. apply Hnrel in Hwn.
  unfold row_explains, nearest_distance. cbn.
  split; [done|]. split; [|split; [|split]].
  - split; [exists ip, wp; by rewrite Edp |].
    intros j w Hw. apply (Lp j). by apply Hrel.
  - split; [exists i_n, wn; by rewrite Edn |].
    intros j w Hw. apply (Ln j). by apply Hnrel.
  - eauto.
  - eauto.
Qed.

(** [predict] succeeds on exemplars of the feature set and gives one row
    per document, in document order. *)
Lemma predict_rows docs (relevant non_relevant : list string) :
  NoDup docs.*1 ->
  relevant <> [] -> non_relevant <> [] ->
  relevant ⊆ docs.*1 -> non_relevant ⊆ docs.*1 ->
  exists p, predict distance docs relevant non_relevant = Ok p
    /\ Y_test_res p = map label (res p)
    /\ X_test p = docs.*1
    /\ length (res p) = length docs
    /\ forall i name v, docs !! i = Some (name, v) ->
         exists r, res p !! i = Some r
           /\ row_explains distance docs relevant non_relevant v r.
Proof.
  intros Hnd Hr Hn Hrs Hns.
  destruct (resolve_ok docs relevant Hnd Hrs) as (rel & Erel & Lrel & Hrel).
  destruct (resolve_ok docs non_relevant Hnd Hns) as (nrel & Enrel & Lnrel & Hnrel).
  assert (Hrel0 : rel <> []).
  { intros ->. destruct relevant; [done | discriminate]. }
  assert (Hnrel0 : nrel <> []).
  { intros ->. destruct non_relevant; [done | discriminate]. }
  destruct (classify_all_rows rel nrel docs.*2 Hrel0 Hnrel0)
    as (rows & Erows & Lrows & Hrows).
  eexists. unfold predict. rewrite Erel, Enrel. cbn. rewrite Erows. cbn.
  split; [reflexivity|]. cbn. split; [done|]. split; [done|].
  split; [by rewrite Lrows, length_fmap|].
  intros i name v Hd.
  destruct (Hrows i v) as (r & Hr1 & Hr2).
  { rewrite list_lookup_fmap, Hd. done. }
  exists r. split; [done|]. by eapply classify_explains.
Qed.

End Model.

(** C6: [predict] labels a document relevant exactly when its distance to
    the nearest relevant exemplar is smaller than its distance to the
    nearest non-relevant exemplar; at equal distances the label is
    non-relevant. *)
Theorem nearest_max_rule {vec : Type} (distance : vec -> vec -> Q)
    (docs : list (string * vec)) (relevant non_relevant : list string) :
  NoDup docs.*1 ->
  relevant <> [] -> non_relevant <> [] ->
  relevant ⊆ docs.*1 -> non_relevant ⊆ docs.*1 ->
  exists p, predict distance docs relevant non_relevant = Ok p
    /\ length (Y_test_res p) = length docs
    /\ forall i name v dp dn,
         docs !! i = Some (name, v) ->
         nearest_distance distance docs relevant v dp ->
         nearest_distance distance docs non_relevant v dn ->
         exists b : bool, Y_test_res p !! i = Some b
           /\ (b = true <-> dp < dn)
           /\ (dp == dn -> b = false).
Proof.
  intros Hnd Hr Hn Hrs Hns.
  destruct (predict_rows distance docs relevant non_relevant Hnd Hr Hn Hrs Hns)
    as (p & E & HY & _ & Hlen & Hrows).
  exists p. split; [done|]. split; [by rewrite HY, length_fmap|].
  intros i name v dp dn Hd Hdp Hdn.
  destruct (Hrows i name v Hd) as (r & Hri & Hl & Hp & Hq & _).
  exists (label r). split; [by rewrite HY, list_lookup_fmap, Hri|].
  pose proof (nearest_distance_unique distance _ _ _ _ _ Hdp Hp) as Ep.
  pose proof (nearest_distance_unique distance _ _ _ _ _ Hdn Hq) as En.
  rewrite Hl. split.
  - rewrite Qltb_lt. by rewrite Ep, En.
  - intros Heq. apply not_true_iff_false. rewrite Qltb_lt.
    rewrite <- Ep, <- En, Heq. apply Qlt_irrefl.
Qed.

Lemma nearest_max_rule_witness :
  exists p, predict distance1 docs5 ["r1.txt"; "r2.txt"] ["n1.txt"; "n2.txt"] = Ok p
    /\ length (Y_test_res p) = length docs5
    /\ forall i name v dp dn,
         docs5 !! i = Some (name, v) ->
         nearest_distance distance1 docs5 ["r1.txt"; "r2.txt"] v dp ->
         nearest_distance distance1 docs5 ["n1.txt"; "n2.txt"] v dn ->
         exists b : bool, Y_test_res p !! i = Some b
           /\ (b = true <-> dp < dn)
           /\ (dp == dn -> b = false).
Proof.
  apply (nearest_max_rule distance1 docs5
           ["r1.txt"; "r2.txt"] ["n1.txt"; "n2.txt"]).
  - apply (bool_decide_unpack _). vm_compute. exact I.
  - discriminate.
  - discriminate.
  - apply (bool_decide_unpack _). vm_compute. exact I.
  - apply (bool_decide_unpack _). vm_compute. exact I.
Defined.

(** The scenario of the specification: document [d.txt] is nearer to the
    relevant [r1.txt] (document 0) than to any non-relevant exemplar, and
    is predicted relevant with [idx_d_p = 0]. *)
Example predict_scenario :
  res <$> predict distance1 docs5 ["r1.txt"; "r2.txt"] ["n1.txt"; "n2.txt"]
  = Ok [ {| label := true; D_d_p := 0; D_d_n := 4; idx_d_p := 0; idx_d_n := 2 |};
         {| label := true; D_d_p := 0; D_d_n := 6; idx_d_p := 1; idx_d_n := 2 |};
         {| label := false; D_d_p := 4; D_d_n := 0; idx_d_p := 0; idx_d_n := 2 |};
         {| label := false; D_d_p := 10; D_d_n := 0; idx_d_p := 1; idx_d_n := 3 |};
         {| label := true; D_d_p := 1; D_d_n := 3; idx_d_p := 0; idx_d_n := 2 |} ].
Proof. vm_compute. reflexivity. Qed.

(** A document half way between [r1.txt] and [n1.txt] is non-relevant. *)
Example predict_tie :
  res <$> predict distance1 [("r1.txt", 0%Z); ("n1.txt", 4%Z); ("t.txt", 2%Z)]
            ["r1.txt"] ["n1.txt"]
  = Ok [ {| label := true; D_d_p := 0; D_d_n := 4; idx_d_p := 0; idx_d_n := 1 |};
         {| label := false; D_d_p := 4; D_d_n := 0; idx_d_p := 0; idx_d_n := 1 |};
         {| label := false; D_d_p := 2; D_d_n := 2; idx_d_p := 0; idx_d_n := 1 |} ].
Proof. vm_compute. reflexivity. Qed.

Lemma has_type_str_list (l : list string) :
  Webargs.has_type (VList (VStr <$> l)) (Webargs.List Webargs.Str) = true.
Proof. cbn. induction l as [|s l IH]; [done|]. cbn. exact IH. Qed.

Lemma as_str_list_fmap (l : list string) :
  as_str_list (VList (VStr <$> l)) = Ok l.
Proof.
  cbn. induction l as [|s l IH]; [done|]. cbn. rewrite IH. reflexivity.
Qed.

(** C7: the answer of the relevance classification holds, for every
    document of the feature set and in document order, the prediction, the
    distances to the nearest relevant and to the nearest non-relevant
    exemplar, and the document indices of these two exemplars. *)
Theorem predict_reports_every_document {vec : Type}
    (distance : vec -> vec -> Q)
    (models : gmap string (list (string * vec))) (mid : string)
    (lsi : list (string * vec)) (req : dict)
    (relevant non_relevant : list string) :
  models !! mid = Some lsi ->
  req !! "relevant_filenames" = Some (VList (VStr <$> relevant)) ->
  req !! "non_relevant_filenames" = Some (VList (VStr <$> non_relevant)) ->
  NoDup lsi.*1 ->
  relevant <> [] -> non_relevant <> [] ->
  relevant ⊆ lsi.*1 -> non_relevant ⊆ lsi.*1 ->
  exists (out : dict) (rows : list row),
    LsiApiElementPredict.post distance models mid req = Ok out
    /\ length rows = length lsi
    /\ out !! "prediction" = Some (VList (map (fun r => VBool (label r)) rows))
    /\ out !! "prediction_rel" = Some (VList (map (fun r => VRat (D_d_p r)) rows))
    /\ out !! "prediction_nrel" = Some (VList (map (fun r => VRat (D_d_n r)) rows))
    /\ out !! "nearest_rel_doc"
       = Some (VList (map (fun r => VInt (Z.of_nat (idx_d_p r))) rows))
    /\ out !! "nearest_nrel_doc"
       = Some (VList (map (fun r => VInt (Z.of_nat (idx_d_n r))) rows))
    /\ forall i name v, lsi !! i = Some (name, v) ->
         exists r, rows !! i = Some r
           /\ row_explains distance lsi relevant non_relevant v r.
Proof.
  intros Hm Hrel Hnrel Hnd Hr Hn Hrs Hns.
  destruct (predict_rows distance lsi relevant non_relevant Hnd Hr Hn Hrs Hns)
    as (p & E & HY & _ & Hlen & Hrows).
  eexists. exists (res p).
  unfold LsiApiElementPredict.post, _lsi_api_element_predict_post_args.
  cbn [Webargs.parse Webargs.arg_required Webargs.kind mbind exc_bind].
  rewrite Hrel, Hnrel, !has_type_str_list. cbn [mbind exc_bind].
  unfold load. rewrite Hm. cbn [mbind exc_bind]. unfold getitem.
  rewrite lookup_insert_eq. cbn [mbind exc_bind]. rewrite as_str_list_fmap.
  cbn [mbind exc_bind].
  rewrite lookup_insert_ne, lookup_insert_eq by discriminate.
  cbn [mbind exc_bind]. rewrite as_str_list_fmap. cbn [mbind exc_bind].
  rewrite E. cbn [mbind exc_bind].
  split; [reflexivity|]. split; [done|].
  unfold tolist. rewrite HY, <- list_fmap_compose.
  repeat (split; [by repeat (rewrite lookup_insert_eq
                             || rewrite lookup_insert_ne by discriminate)|]).
  exact Hrows.
Qed.

Lemma predict_reports_every_document_witness :
  exists (out : dict) (rows : list row),
    LsiApiElementPredict.post distance1 models5 "m5" request5 = Ok out
    /\ length rows = length docs5
    /\ out !! "prediction" = Some (VList (map (fun r => VBool (label r)) rows))
    /\ out !! "prediction_rel" = Some (VList (map (fun r => VRat (D_d_p r)) rows))
    /\ out !! "prediction_nrel" = Some (VList (map (fun r => VRat (D_d_n r)) rows))
    /\ out !! "nearest_rel_doc"
       = Some (VList (map (fun r => VInt (Z.of_nat (idx_d_p r))) rows))
    /\ out !! "nearest_nrel_doc"
       = Some (VList (map (fun r => VInt (Z.of_nat (idx_d_n r))) rows))
    /\ forall i name v, docs5 !! i = Some (name, v) ->
         exists r, rows !! i = Some r
           /\ row_explains distance1 docs5 ["r1.txt"; "r2.txt"]
                ["n1.txt"; "n2.txt"] v r.
Proof.
  apply (predict_reports_every_document distance1 models5 "m5" docs5 request5
           ["r1.txt"; "r2.txt"] ["n1.txt"; "n2.txt"]).
  - reflexivity.
  - reflexivity.
  - reflexivity.
  - apply (bool_decide_unpack _). vm_compute. exact I.
  - discriminate.
  - discriminate.
  - apply (bool_decide_unpack _). vm_compute. exact I.
  - apply (bool_decide_unpack _). vm_compute. exact I.
Defined.

Example post_scenario :
  LsiApiElementPredict.post distance1 models5 "m5" request5
  = Ok (<["prediction" :=
            VList [VBool true; VBool true; VBool false; VBool false; VBool true]]> (
        <["prediction_rel" :=
            VList [VRat 0; VRat 0; VRat 4; VRat 10; VRat 1]]> (
        <["prediction_nrel" :=
            VList [VRat 4; VRat 6; VRat 0; VRat 0; VRat 3]]> (
        <["nearest_rel_doc" := VList [VInt 0; VInt 1; VInt 0; VInt 1; VInt 0]]> (
        <["nearest_nrel_doc" := VList [VInt 2; VInt 2; VInt 2; VInt 3; VInt 2]]> (
        <["recall" := VRat 1]> (<["precision" := VRat 1]> (
        <["f1" := VRat 1]> (<["auc_roc" := VRat 1]> (
        <["average_precision" := VRat 1]> ∅)))))))))).
Proof. vm_compute. reflexivity. Qed.

End LsiSpec.

(** ** Progress as chunks are written *)

Module ProgressSpec.

Import FeaturesApiElement Fixtures.

Lemma filter_length_Permutation {A} (f : A -> bool) (l l' : list A) :
  l ≡ₚ l' -> length (List.filter f l) = length (List.filter f l').
Proof.
  induction 1 as [|x l l' _ IH|x y l|l1 l2 l3 _ IH1 _ IH2]; cbn.
  - done.
  - destruct (f x); cbn; by rewrite IH.
  - destruct (f x), (f y); done.
  - by rewrite IH1.
Qed.

Lemma glob1_add (names : gset string) (name : string) :
  name ∉ names ->
  length (glob1 ({[name]} ∪ names) Glob.features_chunks)
  = (length (glob1 names Glob.features_chunks)
     + (if Glob.fnmatch Glob.features_chunks name then 1 else 0))%nat.
Proof.
  intros Hnew. unfold glob1.
  rewrite (filter_length_Permutation _ _ (name :: elements names))
    by by apply elements_union_singleton.
  cbn [List.filter].
  destruct (Glob.fnmatch Glob.features_chunks name); cbn [length]; lia.
Qed.

(** On a path without glob metacharacters, a new file adds one to the
    chunk count when its name is a chunk name, and nothing otherwise. *)
Lemma n_chunks_add_file (fe : dataset) (dsid name : string) :
  Path.has_magic (glob_dirname fe dsid) = false ->
  name ∉ files fe ->
  n_chunks (add_file name fe) dsid
  = n_chunks fe dsid
    + (if Glob.fnmatch Glob.features_chunks name then 1 else 0).
Proof.
  intros Hplain Hnew. unfold n_chunks, glob.
  change (glob_dirname (add_file name fe) dsid) with (glob_dirname fe dsid).
  rewrite Hplain. cbn [flat_map files add_file]. rewrite !app_nil_r.
  rewrite (glob1_add _ _ Hnew).
  destruct (Glob.fnmatch Glob.features_chunks name); lia.
Qed.

(** Writing one more chunk file while the extraction is in flight, in a
    directory whose path has no glob metacharacters: the status query
    still answers 202, the processed count is that of one more chunk, and
    with a non-negative chunk size it did not go down. *)
Theorem chunk_written_progress (cache : gmap string dataset) (dsid : string)
    (fe : dataset) (name : string) (chunk_size n_samples : Z) :
  cache !! dsid = Some fe ->
  "processing" ∈ files fe ->
  "processing_finished" ∉ files fe ->
  pars fe !! "chunk_size" = Some (VInt chunk_size) ->
  pars fe !! "n_samples" = Some (VInt n_samples) ->
  Path.has_magic (glob_dirname fe dsid) = false ->
  name ∉ files fe ->
  is_chunk_name name ->
  0 <= chunk_size ->
  exists before after : Z,
    get cache dsid
    = Ok (FeaturesSchema_dump
            (<["n_samples_processed" := VInt before]> (pars fe)), 202)
    /\ get (<[dsid := add_file name fe]> cache) dsid
       = Ok (FeaturesSchema_dump
               (<["n_samples_processed" := VInt after]> (pars fe)), 202)
    /\ after = Z.min ((n_chunks fe dsid + 1) * chunk_size) n_samples
    /\ before <= after.
Proof.
  intros Hfe Hp Hf Hcs Hns Hplain Hnew Hchunk Hpos.
  apply StatusSpec.chunk_name_matches in Hchunk.
  exists (Z.min (n_chunks fe dsid * chunk_size) n_samples),
         (Z.min ((n_chunks fe dsid + 1) * chunk_size) n_samples).
  assert (Hname : name <> "processing_finished").
  { intros ->. vm_compute in Hchunk. discriminate. }
  split; [|split; [|split; [reflexivity | apply Z.min_le_compat_r; nia]]].
  - unfold get, FeatureVectorizer. rewrite Hfe. cbn [mbind exc_bind].
    unfold exists_. rewrite (bool_decide_eq_true_2 _ Hp).
    rewrite (bool_decide_eq_false_2 _ Hf). cbn [andb negb].
    unfold getitem. rewrite Hcs, Hns. reflexivity.
  - unfold get, FeatureVectorizer. rewrite lookup_insert_eq.
    cbn [mbind exc_bind]. unfold exists_.
    rewrite (bool_decide_eq_true_2 ("processing" ∈ files (add_file name fe)))
      by (cbn; apply elem_of_union_r, Hp).
    rewrite (bool_decide_eq_false_2
               ("processing_finished" ∈ files (add_file name fe)))
      by (cbn; rewrite elem_of_union, elem_of_singleton; intros [E|E];
          [by symmetry in E | done]).
    cbn [andb negb]. rewrite (n_chunks_add_file fe dsid name Hplain Hnew), Hchunk.
    cbn [pars add_file]. unfold getitem. rewrite Hcs, Hns. reflexivity.
Qed.

Lemma chunk_written_progress_witness :
  exists before after : Z,
    get cache0 "a"
    = Ok (FeaturesSchema_dump
            (<["n_samples_processed" := VInt before]> ten_docs), 202)
    /\ get (<["a" := add_file "features-000002" in_flight]> cache0) "a"
       = Ok (FeaturesSchema_dump
               (<["n_samples_processed" := VInt after]> ten_docs), 202)
    /\ after = Z.min ((n_chunks in_flight "a" + 1) * 4) 10
    /\ before <= after.
Proof.
  apply (chunk_written_progress cache0 "a" in_flight "features-000002" 4 10).
  - reflexivity.
  - by_evaluation.
  - by_evaluation.
  - reflexivity.
  - reflexivity.
  - reflexivity.
  - by_evaluation.
  - apply StatusSpec.chunk_name_matches. reflexivity.
  - lia.
Defined.

(** A file that is not a chunk (a marker, the parameters, a temporary
    file) leaves the count as it is. *)
Theorem other_file_not_counted (fe : dataset) (dsid name : string) :
  ~ is_chunk_name name ->
  n_chunks (add_file name fe) dsid = n_chunks fe dsid.
Proof.
  intros Hother.
  assert (Hm : Glob.fnmatch Glob.features_chunks name = false).
  { apply not_true_iff_false. by rewrite StatusSpec.chunk_name_matches. }
  unfold n_chunks, glob.
  change (glob_dirname (add_file name fe) dsid) with (glob_dirname fe dsid).
  destruct (Path.has_magic (glob_dirname fe dsid)); [done|].
  cbn [flat_map files add_file]. rewrite !app_nil_r.
  destruct (decide (name ∈ files fe)) as [Hin|Hnew].
  - replace ({[name]} ∪ files fe) with (files fe); [done|].
    apply set_eq. intros x. rewrite elem_of_union, elem_of_singleton.
    split; [by right | by intros [->|H]].
  - rewrite (glob1_add _ _ Hnew), Hm. f_equal. lia.
Qed.

Lemma other_file_not_counted_witness :
  n_chunks (add_file "features-000002.tmp" in_flight) "a"
  = n_chunks in_flight "a".
Proof.
  apply (other_file_not_counted in_flight "a" "features-000002.tmp").
  rewrite <- StatusSpec.chunk_name_matches. vm_compute. discriminate.
Defined.

End ProgressSpec.

(** ** More on the normalisation of an extraction request *)

Module NormaliseSpec.

Import FeaturesApi FeaturesSpec Fixtures Fixtures2.

#[local] Opaque EPSILON.

(** The threshold loop leaves the other keys alone. *)
Lemma coerce_key_frame (key : string) (d d' : dict) :
  coerce_key key d = Ok d' -> forall k, k <> key -> d' !! k = d !! k.
Proof.
  unfold coerce_key, contains, getitem. intros H k Hk.
  destruct (d !! key) as [v|]; [|by injection H as <-].
  cbn [mbind exc_bind] in H.
  destruct (gt_float v (1 + EPSILON)) as [[|]|]; cbn [mbind exc_bind] in H;
    [|by injection H as <-|done].
  destruct (int v) as [i|]; [|done]. cbn [mbind exc_bind] in H.
  injection H as <-. by rewrite lookup_insert_ne.
Qed.

(** A value the threshold loop has produced is one it leaves in place. *)
Lemma coerce_key_stable (key : string) (d d' : dict) :
  coerce_key key d = Ok d' ->
  forall e : dict, e !! key = d' !! key -> coerce_key key e = Ok e.
Proof.
  unfold coerce_key at 1. unfold contains, getitem. intros H e He.
  destruct (d !! key) as [v|] eqn:Hv.
  - cbn [mbind exc_bind] in H.
    destruct (gt_float v (1 + EPSILON)) as [[|]|] eqn:Hbig;
      cbn [mbind exc_bind] in H; [| |done].
    + destruct (int v) as [i|] eqn:Hi; [|done]. cbn [mbind exc_bind] in H.
      injection H as <-. rewrite lookup_insert_eq in He.
      assert (Hz : exists z, i = VInt z).
      { destruct v; cbn in Hi; try discriminate;
          try (injection Hi as <-; eauto).
        destruct (int_of_float f); [|done]. injection Hi as <-. eauto. }
      destruct Hz as [z ->].
      unfold coerce_key, contains, getitem. rewrite He. cbn [mbind exc_bind gt_float].
      destruct (float_ltb_Z (1 + EPSILON) z); [|done].
      cbn [int mbind exc_bind]. by rewrite insert_id.
    + injection H as <-. rewrite Hv in He.
      unfold coerce_key, contains, getitem. rewrite He. cbn [mbind exc_bind].
      by rewrite Hbig.
  - injection H as <-. rewrite Hv in He.
    unfold coerce_key, contains. by rewrite He.
Qed.

Lemma coerce_loop_inv (d cfg : dict) :
  for_each ["min_df"; "max_df"] coerce_key d = Ok cfg ->
  exists d1, coerce_key "min_df" d = Ok d1 /\ coerce_key "max_df" d1 = Ok cfg.
Proof.
  cbn [for_each]. intros H.
  destruct (coerce_key "min_df" d) as [d1|]; [|done]. cbn [mbind exc_bind] in H.
  destruct (coerce_key "max_df" d1) as [d2|] eqn:E2; [|done].
  cbn [mbind exc_bind] in H. injection H as <-. exists d1. by split.
Qed.

(** What an accepted request looked like. *)
Lemma post_args_inv (args cfg : dict) :
  post_args args = Ok cfg ->
  exists (use_idf norm h : value) (b : bool),
    args !! "use_idf" = Some use_idf /\ gt_zero use_idf = Ok b
    /\ args !! "norm" = Some norm
    /\ args !! "use_hashing" = Some h
    /\ for_each ["min_df"; "max_df"] coerce_key
         (if truthy h
          then delete "max_df" (delete "min_df" (flags_set args b norm))
          else flags_set args b norm) = Ok cfg.
Proof.
  intros H.
  destruct (args !! "use_idf") as [u|] eqn:Hu;
    [|by unfold post_args, getitem in H; rewrite Hu in H].
  destruct (gt_zero u) as [b|] eqn:Hb;
    [|by unfold post_args, getitem in H; rewrite Hu in H;
         cbn [mbind exc_bind] in H; rewrite Hb in H].
  destruct (args !! "norm") as [n|] eqn:Hn.
  2:{ unfold post_args, getitem in H. rewrite Hu in H.
      cbn [mbind exc_bind] in H. rewrite Hb in H. cbn [mbind exc_bind] in H.
      rewrite lookup_insert_ne, Hn in H by discriminate. done. }
  destruct (args !! "use_hashing") as [h|] eqn:Hh.
  2:{ unfold post_args, getitem in H. rewrite Hu in H.
      cbn [mbind exc_bind] in H. rewrite Hb in H. cbn [mbind exc_bind] in H.
      rewrite lookup_insert_ne, Hn in H by discriminate.
      cbn [mbind exc_bind] in H. fold (flags_set args b n) in H.
      rewrite flags_set_other, Hh in H by discriminate. done. }
  exists u, n, h, b. rewrite (post_args_unfold args u n h b) in H by done.
  done.
Qed.

Lemma post_args_effect (args cfg : dict) :
  post_args args = Ok cfg ->
  (exists (use_idf : value) (b : bool),
      args !! "use_idf" = Some use_idf /\ gt_zero use_idf = Ok b
      /\ cfg !! "use_idf" = Some (VBool b))
  /\ (exists norm : value,
        args !! "norm" = Some norm
        /\ cfg !! "norm" = Some (if eq_str norm "None" then VNone else norm))
  /\ forall k, k ∉ ["use_idf"; "norm"; "min_df"; "max_df"] ->
       cfg !! k = args !! k.
Proof.
  intros H.
  destruct (post_args_inv args cfg H) as (u & n & h & b & Hu & Hb & Hn & Hh & E).
  destruct (coerce_loop_inv _ _ E) as (d1 & E1 & E2).
  assert (F : forall k, k <> "min_df" -> k <> "max_df" ->
            cfg !! k = flags_set args b n !! k).
  { intros k H1 H2.
    rewrite (coerce_key_frame _ _ _ E2 k H2), (coerce_key_frame _ _ _ E1 k H1).
    destruct (truthy h); [|done]. by rewrite !lookup_delete_ne. }
  split; [|split].
  - exists u, b. split; [done|]. split; [done|].
    rewrite F by discriminate. unfold flags_set.
    destruct (eq_str n "None");
      [rewrite lookup_insert_ne by discriminate|]; apply lookup_insert_eq.
  - exists n. split; [done|]. rewrite F by discriminate. unfold flags_set.
    destruct (eq_str n "None"); [apply lookup_insert_eq|].
    by rewrite lookup_insert_ne by discriminate.
  - intros k Hk. rewrite !not_elem_of_cons in Hk.
    destruct Hk as (H1 & H2 & H3 & H4 & _).
    rewrite F by done. by apply flags_set_other.
Qed.

(** The other parameters of an accepted request reach [preprocess] as
    they came; [use_idf] arrives as the boolean [use_idf > 0] and the
    string ['None'] for [norm] as [None]. *)
Theorem post_args_passes_the_rest (args cfg : dict) :
  post_args args = Ok cfg ->
  (exists (use_idf : value) (b : bool),
      args !! "use_idf" = Some use_idf /\ gt_zero use_idf = Ok b
      /\ cfg !! "use_idf" = Some (VBool b))
  /\ (exists norm : value,
        args !! "norm" = Some norm
        /\ cfg !! "norm" = Some (if eq_str norm "None" then VNone else norm))
  /\ forall k, k ∉ ["use_idf"; "norm"; "min_df"; "max_df"] ->
       cfg !! k = args !! k.
Proof. exact (post_args_effect args cfg). Qed.

Lemma post_args_passes_the_rest_witness :
  (exists (use_idf : value) (b : bool),
      counting_request !! "use_idf" = Some use_idf /\ gt_zero use_idf = Ok b
      /\ counting_config !! "use_idf" = Some (VBool b))
  /\ (exists norm : value,
        counting_request !! "norm" = Some norm
        /\ counting_config !! "norm"
           = Some (if eq_str norm "None" then VNone else norm))
  /\ forall k, k ∉ ["use_idf"; "norm"; "min_df"; "max_df"] ->
       counting_config !! k = counting_request !! k.
Proof.
  apply (post_args_passes_the_rest counting_request counting_config).
  vm_compute. reflexivity.
Defined.

(** Normalising is idempotent: the configuration an accepted request is
    turned into is accepted in turn, and comes out as it is. *)
Theorem post_args_idempotent (args cfg : dict) :
  post_args args = Ok cfg -> post_args cfg = Ok cfg.
Proof.
  intros H.
  destruct (post_args_inv args cfg H) as (u & n & h & b & Hu & Hb & Hn & Hh & E).
  destruct (post_args_effect args cfg H)
    as ((u' & b' & Hu' & Hb' & Cu) & (n' & Hn' & Cn) & F).
  rewrite Hu in Hu'. injection Hu' as <-. rewrite Hb in Hb'. injection Hb' as <-.
  rewrite Hn in Hn'. injection Hn' as <-.
  set (n2 := if eq_str n "None" then VNone else n) in *.
  assert (Hn2 : eq_str n2 "None" = false).
  { unfold n2. destruct (eq_str n "None") eqn:En; done. }
  assert (Ch : cfg !! "use_hashing" = Some h).
  { rewrite F; [done|]. rewrite !not_elem_of_cons.
    repeat split; try discriminate. apply not_elem_of_nil. }
  destruct (coerce_loop_inv _ _ E) as (d1 & E1 & E2).
  assert (Hmax : cfg !! "min_df" = d1 !! "min_df")
    by (apply (coerce_key_frame _ _ _ E2); discriminate).
  rewrite (post_args_unfold cfg (VBool b) n2 h b) by done.
  assert (Fb : flags_set cfg b n2 = cfg).
  { unfold flags_set. rewrite Hn2. by apply insert_id. }
  rewrite Fb.
  assert (Hdel : truthy h = true ->
            delete "max_df" (delete "min_df" cfg) = cfg).
  { intros Ht. rewrite Ht in E1.
    assert (N1 : cfg !! "min_df" = None).
    { rewrite Hmax. destruct (d1 !! "min_df") eqn:Hd; [|done].
      assert (A : coerce_key "min_df"
                    (delete "max_df" (delete "min_df" (flags_set args b n)))
                  = Ok (delete "max_df" (delete "min_df" (flags_set args b n)))).
      { apply coerce_key_absent. rewrite lookup_delete_ne by discriminate.
        apply lookup_delete_eq. }
      rewrite A in E1. injection E1 as <-.
      rewrite lookup_delete_ne, lookup_delete_eq in Hd by discriminate. done. }
    assert (N2 : cfg !! "max_df" = None).
    { assert (A : d1 !! "max_df" = None).
      { rewrite (coerce_key_frame _ _ _ E1) by discriminate.
        apply lookup_delete_eq. }
      rewrite (coerce_key_absent _ _ A) in E2. by injection E2 as <-. }
    rewrite (delete_id _ "min_df") by exact N1. by apply delete_id. }
  assert (Loop : for_each ["min_df"; "max_df"] coerce_key cfg = Ok cfg).
  { cbn [for_each].
    rewrite (coerce_key_stable "min_df" _ d1 E1 cfg Hmax). cbn [mbind exc_bind].
    by rewrite (coerce_key_stable "max_df" _ cfg E2 cfg eq_refl). }
  destruct (truthy h) eqn:Ht; [by rewrite Hdel|done].
Qed.

Lemma post_args_idempotent_witness : post_args counting_config = Ok counting_config.
Proof.
  apply (post_args_idempotent counting_request counting_config).
  vm_compute. reflexivity.
Defined.

(** A request that lacks one of [use_idf], [norm] and [use_hashing] is
    not accepted: it ends in the [KeyError] of a missing flag, or in the
    [TypeError] of a [use_idf] that does not compare with 0. *)
Theorem post_args_missing_flag (args : dict) (k : string) :
  k ∈ ["use_idf"; "norm"; "use_hashing"] ->
  args !! k = None ->
  exists e, post_args args = Raise e
    /\ (e = TypeError
        \/ exists k', e = KeyError k' /\ args !! k' = None
                      /\ k' ∈ ["use_idf"; "norm"; "use_hashing"]).
Proof.
  intros Hk Hnone.
  destruct (args !! "use_idf") as [u|] eqn:Hu.
  2:{ exists (KeyError "use_idf"). unfold post_args, getitem. rewrite Hu.
      split; [done|]. right. exists "use_idf".
      split; [done|]. split; [done|]. apply list_elem_of_here. }
  destruct (gt_zero u) as [b|e] eqn:Hb.
  2:{ exists e. unfold post_args, getitem. rewrite Hu. cbn [mbind exc_bind].
      rewrite Hb. split; [done|]. left.
      destruct u; cbn in Hb; congruence. }
  destruct (args !! "norm") as [n|] eqn:Hn.
  2:{ exists (KeyError "norm"). unfold post_args, getitem. rewrite Hu.
      cbn [mbind exc_bind]. rewrite Hb. cbn [mbind exc_bind].
      rewrite lookup_insert_ne, Hn by discriminate.
      split; [done|]. right. exists "norm". split; [done|]. split; [done|].
      apply list_elem_of_further, list_elem_of_here. }
  assert (Hh : args !! "use_hashing" = None).
  { rewrite !elem_of_cons, elem_of_nil in Hk.
    destruct Hk as [->|[->|[->|[]]]]; congruence. }
  exists (KeyError "use_hashing"). unfold post_args, getitem. rewrite Hu.
  cbn [mbind exc_bind]. rewrite Hb. cbn [mbind exc_bind].
  rewrite lookup_insert_ne, Hn by discriminate. cbn [mbind exc_bind].
  fold (flags_set args b n). rewrite flags_set_other, Hh by discriminate.
  split; [done|]. right. exists "use_hashing". split; [done|]. split; [done|].
  do 2 apply list_elem_of_further. apply list_elem_of_here.
Qed.

Lemma post_args_missing_flag_witness :
  exists e, post_args base_request = Raise e
    /\ (e = TypeError
        \/ exists k', e = KeyError k' /\ base_request !! k' = None
                      /\ k' ∈ ["use_idf"; "norm"; "use_hashing"]).
Proof.
  apply (post_args_missing_flag base_request "use_hashing").
  - by_evaluation.
  - reflexivity.
Defined.

(** Without hashing, an infinite [min_df] is not coerced: [int] raises
    [OverflowError] and the request fails with it. *)
Theorem infinite_min_df_overflows (args : dict) (use_idf norm h : value)
    (b : bool) :
  args !! "use_idf" = Some use_idf -> gt_zero use_idf = Ok b ->
  args !! "norm" = Some norm ->
  args !! "use_hashing" = Some h -> truthy h = false ->
  args !! "min_df" = Some (VFloat infinity) ->
  post_args args = Raise OverflowError.
Proof.
  intros Hu Hb Hn Hh Ht Hmin.
  rewrite (post_args_unfold args use_idf norm h b) by done. rewrite Ht.
  assert (E : coerce_key "min_df" (flags_set args b norm) = Raise OverflowError).
  { unfold coerce_key, contains, getitem.
    rewrite flags_set_other, Hmin by discriminate. reflexivity. }
  cbn [for_each]. by rewrite E.
Qed.

Lemma infinite_min_df_overflows_witness :
  post_args (<["min_df" := VFloat infinity]> counting_request)
  = Raise OverflowError.
Proof.
  apply (infinite_min_df_overflows
           (<["min_df" := VFloat infinity]> counting_request)
           (VInt 1) (VStr "l2") (VBool false) true); reflexivity.
Defined.

End NormaliseSpec.

(** ** What parsing lets through *)

Module ParseSpec.

Import Webargs WebargsSpec.

(** Only declared names are in the parsed arguments. *)
Lemma parse_undeclared (schema : list (string * field)) (req args : dict)
    (name : string) :
  parse schema req = Ok args -> name ∉ schema.*1 -> args !! name = None.
Proof.
  revert args. induction schema as [|[n g] rest IH]; intros args Hp Hn.
  - cbn in Hp. by injection Hp as <-.
  - cbn in Hp. destruct (parse rest req) as [a|] eqn:Ha; [|discriminate].
    cbn in Hp, Hn. apply not_elem_of_cons in Hn as [Hne Hn].
    specialize (IH a eq_refl Hn).
    destruct (req !! n) as [v|];
      [destruct (has_type v (kind g)); [|discriminate]
      |destruct (missing g); [|destruct (required g); [discriminate|]]];
      injection Hp as <-; try done; by rewrite lookup_insert_ne.
Qed.

(** The parsed arguments, name by name. *)
Lemma parse_parsed_value (schema : list (string * field)) (req args : dict) :
  parse schema req = Ok args -> NoDup schema.*1 ->
  forall name, args !! name = parsed_value schema req name.
Proof.
  intros Hp Hnd name. unfold parsed_value, declared.
  destruct ((list_to_map schema : gmap string field) !! name) as [f|] eqn:E.
  - apply elem_of_list_to_map_2 in E. cbn.
    pose proof (parse_lookup _ _ _ Hp Hnd name f E) as L.
    destruct (req !! name); [apply L | exact L].
  - apply not_elem_of_list_to_map in E. cbn.
    by apply (parse_undeclared schema req).
Qed.



End ParseSpec.

(** ** More on the clustering handlers *)

Module ClusteringCallSpec.

Import Webargs WebargsSpec ParseSpec ClusteringSpec Fixtures Fixtures2.

(** The call each clustering handler makes. *)
Lemma clustering_post_call `{cl : Clustering} (m : clustering_method)
    (req args : dict) :
  parse (clustering_schema m) req = Ok args ->
  exists dsid : string,
    req !! "dataset_id" = Some (VStr dsid)
    /\ clustering_post m req
       = (mid ← clustering_fit m dsid (clustering_kwargs args);
          Ok {["id" := VStr mid]}).
Proof.
  intros Hp.
  pose proof (parse_lookup _ _ _ Hp (clustering_schema_NoDup m)) as L.
  pose proof (L _ _ (clustering_schema_lsi m)) as Llsi.
  pose proof (L _ _ (clustering_schema_dsid m)) as Ldsid.
  destruct (parse_required _ _ _ _ _ Hp (clustering_schema_dsid m)) as [v Hv].
  rewrite Hv in Ldsid. destruct Ldsid as [Ht Hd].
  destruct (has_type_Str v Ht) as [dsid ->].
  assert (Hz : exists z, args !! "lsi_components" = Some (VInt z)).
  { destruct (req !! "lsi_components") as [w|].
    - destruct Llsi as [Hw ->]. destruct w; try discriminate. eauto.
    - rewrite Llsi. cbn. eauto. }
  destruct Hz as [z Hz]. exists dsid. split; [done|].
  unfold clustering_kwargs. rewrite Hz.
  destruct m; cbn [clustering_post clustering_fit clustering_schema] in *;
    unfold KmeanClusteringApi_post, BirchClusteringApi_post,
      WardHCClusteringApi_post, DBSCANClusteringApi_post;
    rewrite Hp; cbn [mbind exc_bind];
    unfold getitem; rewrite Hz; cbn [mbind exc_bind lt_zero];
    (destruct (z <? 0);
     [rewrite lookup_insert_ne, Hd by discriminate;
      cbn [mbind exc_bind as_str]; unfold delitem, contains;
      rewrite lookup_insert_ne, Hd by discriminate; reflexivity
     |rewrite Hd; cbn [mbind exc_bind as_str]; unfold delitem, contains;
      rewrite Hd; reflexivity]).
Qed.

(** Every accepted clustering request reaches the fit operation with the
    declared arguments other than [dataset_id] and [lsi_components] as
    supplied, or as their declared default when they have one, and with
    nothing the schema does not declare; [dataset_id] is never among
    them. *)
Theorem clustering_fit_receives `{cl : Clustering} (m : clustering_method)
    (req args : dict) :
  parse (clustering_schema m) req = Ok args ->
  exists (dsid : string) (kwargs : dict),
    req !! "dataset_id" = Some (VStr dsid)
    /\ clustering_post m req
       = (mid ← clustering_fit m dsid kwargs; Ok {["id" := VStr mid]})
    /\ kwargs !! "dataset_id" = None
    /\ forall k, k <> "dataset_id" -> k <> "lsi_components" ->
         kwargs !! k = parsed_value (clustering_schema m) req k.
Proof.
  intros Hp.
  destruct (clustering_post_call m req args Hp) as (dsid & Hd & E).
  exists dsid, (clustering_kwargs args).
  split; [done|]. split; [done|]. unfold clustering_kwargs. split.
  - apply lookup_delete_eq.
  - intros k H1 H2. rewrite lookup_delete_ne by done.
    rewrite <- (parse_parsed_value _ _ _ Hp (clustering_schema_NoDup m)).
    destruct (args !! "lsi_components") as [[]|]; try done.
    destruct (_ <? 0); [|done]. by rewrite lookup_insert_ne.
Qed.

Lemma clustering_fit_receives_witness :
  exists (dsid : string) (kwargs : dict),
    dbscan_request !! "dataset_id" = Some (VStr dsid)
    /\ clustering_post (cl := echo_clustering) DBSCAN dbscan_request
       = (mid ← clustering_fit (cl := echo_clustering) DBSCAN dsid kwargs;
          Ok {["id" := VStr mid]})
    /\ kwargs !! "dataset_id" = None
    /\ forall k, k <> "dataset_id" -> k <> "lsi_components" ->
         kwargs !! k = parsed_value (clustering_schema DBSCAN) dbscan_request k.
Proof.
  apply (clustering_fit_receives (cl := echo_clustering) DBSCAN
           dbscan_request dbscan_parsed).
  vm_compute. reflexivity.
Defined.

(** What reaches [dbscan] for a request that also names a cluster count
    and an undeclared option: the defaults of [eps] and [min_samples], and
    neither [n_clusters] nor the option. *)
Example dbscan_kwargs :
  clustering_kwargs dbscan_parsed
  = <["lsi_components" := VInt 4]> (<["eps" := VFloat 0.1]> (
    <["min_samples" := VInt 10]> ∅)).
Proof. vm_compute. reflexivity. Qed.



Lemma nonnegative_lsi_components_kept_witness :
  exists dsid : string,
    dbscan_request !! "dataset_id" = Some (VStr dsid)
    /\ clustering_post (cl := echo_clustering) DBSCAN dbscan_request
       = (mid ← clustering_fit (cl := echo_clustering) DBSCAN dsid
                  (delete "dataset_id" dbscan_parsed);
          Ok {["id" := VStr mid]}).
Proof.
  apply (nonnegative_lsi_components_kept (cl := echo_clustering) DBSCAN
           dbscan_request dbscan_parsed 4).
  - vm_compute. reflexivity.
  - reflexivity.
  - lia.
Defined.

End ClusteringCallSpec.

(** ** What the trainer is called with *)

Module TrainCallSpec.

Import Webargs WebargsSpec ParseSpec ModelsApi ModelsSpec Fixtures.

(** An accepted training request reaches [cat.train] with the dataset id,
    [cv='fast'] unless the request sets [cv] to false, and exactly the
    keyword arguments [relevant_filenames], [non_relevant_filenames] and
    [method], as supplied. *)
Theorem train_receives
    (train : string -> option string -> dict -> exc Categorizer)
    (req args : dict) :
  parse _models_api_post_args req = Ok args ->
  exists (dsid : string) (cv : option string) (kwargs : dict) (scores : bool),
    req !! "dataset_id" = Some (VStr dsid)
    /\ post train req
       = (cat ← train dsid cv kwargs;
          res ← (if scores then
                   Y_res ← predict cat;
                   Ok (Scoring.classification_score
                         (X_train cat) (Y_train cat) (filenames cat) Y_res)
                 else Ok no_scores);
          Ok (<["id" := VStr (mid cat)]> res))
    /\ cv = match req !! "cv" with
            | Some (VBool false) => None
            | _ => Some "fast"
            end
    /\ forall k,
         kwargs !! k
         = if bool_decide
                (k ∈ ["relevant_filenames"; "non_relevant_filenames"; "method"])
           then req !! k else None.
Proof.
  intros Hp.
  destruct (post_train train req args Hp) as (dsid & flag & Hd & _ & _ & _ & E).
  pose proof (parse_parsed_value _ _ _ Hp models_schema_NoDup) as V.
  eexists dsid, _, _, flag. split; [done|]. split; [exact E|]. split.
  - pose proof (parse_lookup _ _ _ Hp models_schema_NoDup
                  "cv" (arg_missing Boolean (VBool true))) as L.
    destruct (req !! "cv") as [c|].
    + destruct L as [Hc _]; [cbn; set_solver|].
      destruct (has_type_Boolean c Hc) as [[] ->]; reflexivity.
    + reflexivity.
  - intros k.
    destruct (decide (k = "training_scores")) as [->|H1];
      [by rewrite lookup_delete_eq|].
    rewrite lookup_delete_ne by done.
    destruct (decide (k = "cv")) as [->|H2]; [by rewrite lookup_delete_eq|].
    rewrite lookup_delete_ne by done.
    destruct (decide (k = "dataset_id")) as [->|H3];
      [by rewrite lookup_delete_eq|].
    rewrite lookup_delete_ne, V by done. unfold parsed_value, declared.
    destruct (decide (k = "relevant_filenames")) as [->|H4].
    { cbn. by destruct (req !! "relevant_filenames"). }
    destruct (decide (k = "non_relevant_filenames")) as [->|H5].
    { cbn. by destruct (req !! "non_relevant_filenames"). }
    destruct (decide (k = "method")) as [->|H6].
    { cbn. by destruct (req !! "method"). }
    rewrite bool_decide_eq_false_2.
    2:{ rewrite !elem_of_cons, elem_of_nil. tauto. }
    unfold _models_api_post_args. cbn [list_to_map foldr curry fst snd].
    by rewrite !lookup_insert_ne, lookup_empty by done.
Qed.

Lemma train_receives_witness :
  exists (dsid : string) (cv : option string) (kwargs : dict) (scores : bool),
    quiet_request !! "dataset_id" = Some (VStr dsid)
    /\ post train0 quiet_request
       = (cat ← train0 dsid cv kwargs;
          res ← (if scores then
                   Y_res ← predict cat;
                   Ok (Scoring.classification_score
                         (X_train cat) (Y_train cat) (filenames cat) Y_res)
                 else Ok no_scores);
          Ok (<["id" := VStr (mid cat)]> res))
    /\ cv = match quiet_request !! "cv" with
            | Some (VBool false) => None
            | _ => Some "fast"
            end
    /\ forall k,
         kwargs !! k
         = if bool_decide
                (k ∈ ["relevant_filenames"; "non_relevant_filenames"; "method"])
           then quiet_request !! k else None.
Proof.
  apply (train_receives train0 quiet_request quiet_parsed).
  vm_compute. reflexivity.
Defined.



End TrainCallSpec.

(** ** More on the relevance handlers *)

Module LsiHandlersSpec.

Import Webargs WebargsSpec ParseSpec Scoring LSI LsiSpec Fixtures Fixtures2.

Definition score_keys : gset string :=
  {["recall"; "precision"; "f1"; "auc_roc"; "average_precision"]}.

Definition prediction_keys : gset string :=
  {["prediction"; "prediction_rel"; "prediction_nrel";
    "nearest_rel_doc"; "nearest_nrel_doc"]}.

Lemma classification_score_dom (idx_ref : list string) (Y_ref : list bool)
    (idx : list string) (Y : list bool) :
  dom (classification_score idx_ref Y_ref idx Y) = score_keys.
Proof.
  unfold classification_score, score_keys.
  rewrite !dom_insert_L, dom_empty_L. set_solver.
Qed.

(** The handler, once the request is parsed and the model is found. *)
Lemma predict_post_run {vec : Type} (distance : vec -> vec -> Q)
    (models : gmap string (list (string * vec))) (mid : string)
    (lsi : list (string * vec)) (req : dict)
    (relevant non_relevant : list string) :
  models !! mid = Some lsi ->
  req !! "relevant_filenames" = Some (VList (VStr <$> relevant)) ->
  req !! "non_relevant_filenames" = Some (VList (VStr <$> non_relevant)) ->
  LsiApiElementPredict.post distance models mid req
  = (p ← predict distance lsi relevant non_relevant;
     Ok (<["nearest_nrel_doc" :=
             tolist (fun r => VInt (Z.of_nat (idx_d_n r))) (res p)]> (
         <["nearest_rel_doc" :=
             tolist (fun r => VInt (Z.of_nat (idx_d_p r))) (res p)]> (
         <["prediction_nrel" := tolist (fun r => VRat (D_d_n r)) (res p)]> (
         <["prediction_rel" := tolist (fun r => VRat (D_d_p r)) (res p)]> (
         <["prediction" := tolist VBool (Y_test_res p)]>
           (classification_score (X_train p) (Y_train p)
                                 (X_train p) (Y_train_res p)))))))).
Proof.
  intros Hm Hrel Hnrel.
  unfold LsiApiElementPredict.post, _lsi_api_element_predict_post_args.
  cbn [Webargs.parse Webargs.arg_required Webargs.kind mbind exc_bind].
  rewrite Hrel, Hnrel, !has_type_str_list. cbn [mbind exc_bind].
  unfold load. rewrite Hm. cbn [mbind exc_bind]. unfold getitem.
  rewrite lookup_insert_eq. cbn [mbind exc_bind]. rewrite as_str_list_fmap.
  cbn [mbind exc_bind].
  rewrite lookup_insert_ne, lookup_insert_eq by discriminate.
  cbn [mbind exc_bind]. rewrite as_str_list_fmap. cbn [mbind exc_bind].
  reflexivity.
Qed.

(** The answer of a relevance classification has the five prediction
    fields and the five scores of the training set, and no other field:
    the prediction fields do not replace a score. *)
Theorem predict_response_fields {vec : Type} (distance : vec -> vec -> Q)
    (models : gmap string (list (string * vec))) (mid : string)
    (lsi : list (string * vec)) (req out : dict)
    (relevant non_relevant : list string) :
  models !! mid = Some lsi ->
  req !! "relevant_filenames" = Some (VList (VStr <$> relevant)) ->
  req !! "non_relevant_filenames" = Some (VList (VStr <$> non_relevant)) ->
  LsiApiElementPredict.post distance models mid req = Ok out ->
  dom out = score_keys ∪ prediction_keys
  /\ exists p, predict distance lsi relevant non_relevant = Ok p
       /\ forall k, k ∈ score_keys ->
            out !! k = classification_score (X_train p) (Y_train p)
                         (X_train p) (Y_train_res p) !! k.
Proof.
  intros Hm Hrel Hnrel H.
  rewrite (predict_post_run distance models mid lsi req relevant non_relevant)
    in H by done.
  destruct (predict distance lsi relevant non_relevant) as [p|]; [|done].
  cbn [mbind exc_bind] in H. injection H as <-. split.
  - rewrite !dom_insert_L, classification_score_dom.
    unfold prediction_keys. set_solver.
  - exists p. split; [done|]. intros k Hk.
    assert (Hne : k ∉ prediction_keys).
    { revert Hk. unfold score_keys, prediction_keys.
      rewrite !elem_of_union, !elem_of_singleton.
      intros [[[[->| ->]| ->]| ->]| ->] [[[[E|E]|E]|E]|E]; discriminate. }
    unfold prediction_keys in Hne.
    rewrite !not_elem_of_union, !not_elem_of_singleton in Hne.
    destruct Hne as [[[[? ?] ?] ?] ?].
    by rewrite !lookup_insert_ne.
Qed.

Lemma predict_response_fields_witness :
  dom post5 = score_keys ∪ prediction_keys
  /\ exists p, predict distance1 docs5 ["r1.txt"; "r2.txt"]
                 ["n1.txt"; "n2.txt"] = Ok p
       /\ forall k, k ∈ score_keys ->
            post5 !! k = classification_score (X_train p) (Y_train p)
                           (X_train p) (Y_train_res p) !! k.
Proof.
  apply (predict_response_fields distance1 models5 "m5" docs5 request5 post5
           ["r1.txt"; "r2.txt"] ["n1.txt"; "n2.txt"]).
  - reflexivity.
  - reflexivity.
  - reflexivity.
  - vm_compute. reflexivity.
Defined.



(** The test handler scores, against the ground truth, the very
    predictions that the classification handler answers for the same
    model and exemplars. *)
Theorem test_scores_the_predictions {vec : Type} (distance : vec -> vec -> Q)
    (parse_ground_truth_file : string -> exc (list string * list bool))
    (models : gmap string (list (string * vec))) (mid : string)
    (lsi : list (string * vec)) (req out : dict)
    (relevant non_relevant : list string) (filename : string)
    (idx_ref : list string) (Y_ref : list bool) :
  models !! mid = Some lsi ->
  req !! "relevant_filenames" = Some (VList (VStr <$> relevant)) ->
  req !! "non_relevant_filenames" = Some (VList (VStr <$> non_relevant)) ->
  req !! "ground_truth_filename" = Some (VStr filename) ->
  parse_ground_truth_file filename = Ok (idx_ref, Y_ref) ->
  LsiApiElementPredict.post distance models mid req = Ok out ->
  exists Y : list bool,
    out !! "prediction" = Some (VList (VBool <$> Y))
    /\ LsiApiElementTest.post distance parse_ground_truth_file models mid req
       = Ok (classification_score idx_ref Y_ref lsi.*1 Y).
Proof.
  intros Hm Hrel Hnrel Hgt Hfile H.
  rewrite (predict_post_run distance models mid lsi req relevant non_relevant)
    in H by done.
  destruct (predict distance lsi relevant non_relevant) as [p|] eqn:Ep; [|done].
  cbn [mbind exc_bind] in H. injection H as <-.
  exists (Y_test_res p). split.
  { by rewrite !lookup_insert_ne, lookup_insert_eq by discriminate. }
  assert (HX : X_test p = lsi.*1).
  { unfold predict in Ep.
    destruct (resolve relevant lsi); [|done]. cbn [mbind exc_bind] in Ep.
    destruct (resolve non_relevant lsi); [|done]. cbn [mbind exc_bind] in Ep.
    destruct (classify_all _ _ _ _); [|done]. cbn [mbind exc_bind] in Ep.
    by injection Ep as <-. }
  unfold LsiApiElementTest.post, _lsi_api_element_test_post_args.
  cbn [Webargs.parse Webargs.arg_required Webargs.kind mbind exc_bind].
  rewrite Hgt. cbn [has_type mbind exc_bind].
  rewrite Hnrel, has_type_str_list. cbn [mbind exc_bind].
  rewrite Hrel, has_type_str_list. cbn [mbind exc_bind].
  unfold load. rewrite Hm. cbn [mbind exc_bind]. unfold getitem.
  rewrite !lookup_insert_ne, lookup_insert_eq by discriminate.
  cbn [mbind exc_bind as_str]. rewrite Hfile. cbn [mbind exc_bind].
  unfold delitem, contains.
  rewrite (lookup_insert_ne _ "relevant_filenames") by discriminate.
  rewrite (lookup_insert_ne _ "non_relevant_filenames") by discriminate.
  rewrite lookup_insert_eq. cbn [mbind exc_bind].
  rewrite !lookup_delete_ne by discriminate.
  rewrite lookup_insert_eq. cbn [mbind exc_bind].
  rewrite as_str_list_fmap. cbn [mbind exc_bind].
  rewrite lookup_insert_ne, lookup_insert_eq by discriminate.
  cbn [mbind exc_bind]. rewrite as_str_list_fmap. cbn [mbind exc_bind].
  rewrite Ep. cbn [mbind exc_bind fst snd]. by rewrite HX.
Qed.

Lemma test_scores_the_predictions_witness :
  exists Y : list bool,
    post5 !! "prediction" = Some (VList (VBool <$> Y))
    /\ LsiApiElementTest.post distance1 ground_truth0 models5 "m5" test_request5
       = Ok (classification_score
               ["d.txt"; "n1.txt"; "r1.txt"; "n2.txt"; "zz.txt"]
               [true; true; true; false; true] docs5.*1 Y).
Proof.
  apply (test_scores_the_predictions distance1 ground_truth0 models5 "m5"
           docs5 test_request5 post5 ["r1.txt"; "r2.txt"] ["n1.txt"; "n2.txt"]
           "gt.csv").
  - reflexivity.
  - reflexivity.
  - reflexivity.
  - reflexivity.
  - reflexivity.
  - vm_compute. reflexivity.
Defined.

(** Against [ground_truth0], which calls [n1.txt] relevant and leaves
    [r2.txt] out: four documents are scored, and three of them are
    predicted as the ground truth says. *)
Example test_scenario :
  LsiApiElementTest.post distance1 ground_truth0 models5 "m5" test_request5
  = Ok (<["recall" := VRat (2 # 3)]> (<["precision" := VRat 1]> (
        <["f1" := VRat (4 # 5)]> (<["auc_roc" := VRat (5 # 6)]> (
        <["average_precision" := VRat (11 # 12)]> ∅))))).
Proof. vm_compute. reflexivity. Qed.

End LsiHandlersSpec.

(** ** Reading a clustering back *)

Module ClusteringElementSpec.

Import Webargs WebargsSpec ParseSpec ClusteringApiElement Fixtures2.

Lemma get_parsed (req : dict) (n : Z) :
  req !! "n_top_words" = Some (VInt n)
  \/ (req !! "n_top_words" = None /\ n = 5) ->
  parse _clustering_api_get_args req = Ok {["n_top_words" := VInt n]}.
Proof.
  intros [H | [H ->]]; unfold _clustering_api_get_args; cbn; by rewrite H.
Qed.

Lemma htree_unchanged (h : dict) :
  match h !! "children" with
  | Some children => <["children" := children]> h
  | None => h
  end = h.
Proof. destruct (h !! "children") eqn:E; [by apply insert_id | done]. Qed.

(** The representative terms are computed only for a positive
    [n_top_words] (5 when the request leaves it out): otherwise the answer
    has the empty list and does not depend on [compute_labels], which may
    even fail; for a positive count the terms are what [compute_labels]
    gives for that count. *)
Theorem cluster_terms_gated (cl : Clustering) (req : dict) (n : Z)
    (lsi : value) :
  req !! "n_top_words" = Some (VInt n)
  \/ (req !! "n_top_words" = None /\ n = 5) ->
  _load_pars cl !! "lsi" = Some lsi ->
  (n <= 0 -> exists r, get cl req = Ok r /\ cluster_terms r = VList [])
  /\ (0 < n ->
      get cl req
      = (terms ← compute_labels cl {["n_top_words" := VInt n]};
         Ok {| labels := tolist VInt (labels_ cl);
               cluster_terms := terms;
               htree := _get_htree cl;
               pars := if truthy lsi
                       then <["lsi" := VBool true]> (_load_pars cl)
                       else _load_pars cl |})).
Proof.
  intros Hn Hlsi. unfold get. rewrite (get_parsed req n Hn).
  cbn [mbind exc_bind]. unfold getitem. rewrite lookup_singleton_eq, Hlsi.
  cbn [mbind exc_bind gt_zero]. rewrite htree_unchanged. split; intros Hs.
  - rewrite (proj2 (Z.ltb_ge 0 n) Hs). cbn [mbind exc_bind]. eauto.
  - rewrite (proj2 (Z.ltb_lt 0 n) Hs).
    destruct (compute_labels cl _); reflexivity.
Qed.

Lemma cluster_terms_gated_witness :
  (0 <= 0 -> exists r, get clustering_no_lsi {["n_top_words" := VInt 0]} = Ok r
                       /\ cluster_terms r = VList [])
  /\ (0 < 0 ->
      get clustering_no_lsi {["n_top_words" := VInt 0]}
      = (terms ← compute_labels clustering_no_lsi {["n_top_words" := VInt 0]};
         Ok {| labels := tolist VInt (labels_ clustering_no_lsi);
               cluster_terms := terms;
               htree := _get_htree clustering_no_lsi;
               pars := if truthy VNone
                       then <["lsi" := VBool true]> (_load_pars clustering_no_lsi)
                       else _load_pars clustering_no_lsi |})).
Proof.
  apply (cluster_terms_gated clustering_no_lsi {["n_top_words" := VInt 0]}
           0 VNone).
  - left. reflexivity.
  - reflexivity.
Defined.

(** In the answer the stored [lsi] parameter is [True] when it is truthy
    (the id of a projection) and is left as stored when it is not; every
    other stored parameter, the tree and the labels are handed on as they
    are. *)
Theorem clustering_answer_parameters (cl : Clustering) (req : dict)
    (r : response) :
  get cl req = Ok r ->
  exists lsi : value,
    _load_pars cl !! "lsi" = Some lsi
    /\ pars r !! "lsi" = Some (if truthy lsi then VBool true else lsi)
    /\ (forall k, k <> "lsi" -> pars r !! k = _load_pars cl !! k)
    /\ htree r = _get_htree cl
    /\ labels r = VList (VInt <$> labels_ cl).
Proof.
  unfold get. intros H.
  destruct (parse _clustering_api_get_args req) as [args|]; [|done].
  cbn [mbind exc_bind] in H. rewrite htree_unchanged in H.
  destruct (getitem args "n_top_words") as [n|]; [|done].
  cbn [mbind exc_bind] in H.
  destruct (gt_zero n) as [positive|]; [|done]. cbn [mbind exc_bind] in H.
  destruct (if positive then compute_labels cl args else Ok (VList []))
    as [terms|]; [|done].
  cbn [mbind exc_bind] in H. unfold getitem in H.
  destruct (_load_pars cl !! "lsi") as [lsi|] eqn:Hlsi; [|done].
  cbn [mbind exc_bind] in H. injection H as <-. cbn.
  exists lsi. split; [done|].
  destruct (truthy lsi).
  - split; [apply lookup_insert_eq|]. split; [|done].
    intros k Hk. by rewrite lookup_insert_ne.
  - done.
Qed.

Lemma clustering_answer_parameters_witness :
  exists lsi : value,
    _load_pars clustering0 !! "lsi" = Some lsi
    /\ pars answer0 !! "lsi" = Some (if truthy lsi then VBool true else lsi)
    /\ (forall k, k <> "lsi" -> pars answer0 !! k = _load_pars clustering0 !! k)
    /\ htree answer0 = _get_htree clustering0
    /\ labels answer0 = VList (VInt <$> labels_ clustering0).
Proof.
  apply (clustering_answer_parameters clustering0 ∅ answer0).
  vm_compute. reflexivity.
Defined.

(** Without [lsi] among the stored parameters there is no answer. *)
Example clustering_without_lsi_parameter :
  get {| labels_ := [0]; _get_htree := ∅;
         compute_labels := fun _ => Ok (VList []); _load_pars := ∅ |} ∅
  = Raise (KeyError "lsi").
Proof. vm_compute. reflexivity. Qed.

End ClusteringElementSpec.

(** ** Duplicate detection *)

Module DupDetectionSpec.

Import Webargs WebargsSpec ParseSpec Fixtures2.

Lemma dup_post_schema_NoDup : NoDup _dup_detection_api_post_args.*1.
Proof. apply (bool_decide_unpack _). vm_compute. exact I. Qed.

Lemma dup_get_schema_NoDup : NoDup _dupdet_api_get_args.*1.
Proof. apply (bool_decide_unpack _). vm_compute. exact I. Qed.

(** An accepted request fits the duplicate detection of its dataset with
    the method it names, and with ['simhash'] when it names none. *)
Theorem dup_fit_method (fit : string -> value -> exc string)
    (req args : dict) :
  parse _dup_detection_api_post_args req = Ok args ->
  exists dsid : string,
    req !! "dataset_id" = Some (VStr dsid)
    /\ DupDetectionApi.post fit req
       = (mid ← fit dsid (default (VStr "simhash") (req !! "method"));
          Ok {["id" := VStr mid]}).
Proof.
  intros Hp.
  pose proof (parse_lookup _ _ _ Hp dup_post_schema_NoDup) as L.
  assert (Ld := L "dataset_id" (arg_required Str)).
  assert (Lm := L "method" (arg_missing Str (VStr "simhash"))).
  destruct (parse_required _ _ _ "dataset_id" Str Hp) as [v Hv];
    [apply list_elem_of_here|].
  rewrite Hv in Ld. destruct Ld as [Ht Hd]; [apply list_elem_of_here|].
  destruct (has_type_Str v Ht) as [dsid ->].
  assert (Hm : args !! "method"
               = Some (default (VStr "simhash") (req !! "method"))).
  { destruct (req !! "method").
    - apply Lm. apply list_elem_of_further, list_elem_of_here.
    - apply Lm. apply list_elem_of_further, list_elem_of_here. }
  exists dsid. split; [done|].
  unfold DupDetectionApi.post. rewrite Hp. cbn [mbind exc_bind].
  unfold getitem. rewrite Hd. cbn [mbind exc_bind as_str].
  unfold delitem, contains. rewrite Hd. cbn [mbind exc_bind].
  rewrite lookup_delete_ne, Hm by discriminate. reflexivity.
Qed.

Lemma dup_fit_method_witness :
  exists dsid : string,
    (<["dataset_id" := VStr "d0"]> ∅ : dict) !! "dataset_id" = Some (VStr dsid)
    /\ DupDetectionApi.post dup_fit0 (<["dataset_id" := VStr "d0"]> ∅)
       = (mid ← dup_fit0 dsid
                  (default (VStr "simhash")
                     ((<["dataset_id" := VStr "d0"]> ∅ : dict) !! "method"));
          Ok {["id" := VStr mid]}).
Proof.
  apply (dup_fit_method dup_fit0 (<["dataset_id" := VStr "d0"]> ∅)
           (<["dataset_id" := VStr "d0"]> (<["method" := VStr "simhash"]> ∅))).
  vm_compute. reflexivity.
Defined.

Example dup_fit_default :
  DupDetectionApi.post dup_fit0 (<["dataset_id" := VStr "d0"]> ∅)
  = Ok {["id" := VStr "simhash@d0"]}.
Proof. vm_compute. reflexivity. Qed.

(** A duplicate query hands [model.query] the arguments [distance],
    [n_rand_lexicons] and [rand_lexicon_ratio] that the request supplies
    and no others: an argument left out is not replaced by a value. *)
Theorem dup_query_receives (query : string -> dict -> exc value)
    (mid : string) (req args : dict) :
  parse _dupdet_api_get_args req = Ok args ->
  DupDetectionApiElement.get query mid req
  = (cluster_id ← query mid args; Ok {["cluster_id" := cluster_id]})
  /\ forall k,
       args !! k
       = if bool_decide
              (k ∈ ["distance"; "n_rand_lexicons"; "rand_lexicon_ratio"])
         then req !! k else None.
Proof.
  intros Hp. split.
  - unfold DupDetectionApiElement.get. by rewrite Hp.
  - intros k. rewrite (parse_parsed_value _ _ _ Hp dup_get_schema_NoDup).
    unfold parsed_value, declared.
    destruct (decide (k = "distance")) as [->|H1].
    { cbn. by destruct (req !! "distance"). }
    destruct (decide (k = "n_rand_lexicons")) as [->|H2].
    { cbn. by destruct (req !! "n_rand_lexicons"). }
    destruct (decide (k = "rand_lexicon_ratio")) as [->|H3].
    { cbn. by destruct (req !! "rand_lexicon_ratio"). }
    rewrite bool_decide_eq_false_2.
    2:{ rewrite !elem_of_cons, elem_of_nil. tauto. }
    unfold _dupdet_api_get_args. cbn [list_to_map foldr curry fst snd].
    by rewrite !lookup_insert_ne, lookup_empty by done.
Qed.

Lemma dup_query_receives_witness :
  DupDetectionApiElement.get dup_query0 "m1" {["distance" := VInt 3]}
  = (cluster_id ← dup_query0 "m1" {["distance" := VInt 3]};
     Ok {["cluster_id" := cluster_id]})
  /\ forall k,
       ({["distance" := VInt 3]} : dict) !! k
       = if bool_decide
              (k ∈ ["distance"; "n_rand_lexicons"; "rand_lexicon_ratio"])
         then ({["distance" := VInt 3]} : dict) !! k else None.
Proof.
  apply (dup_query_receives dup_query0 "m1" {["distance" := VInt 3]}
           {["distance" := VInt 3]}).
  vm_compute. reflexivity.
Defined.

End DupDetectionSpec.
